(** * Comfy.DynamicWorkflowEditor: the "Refresh Inputs" handler

    A shallow embedding of [web/js/DynamicWorkflowEditor.js].  The file
    holds two variants of one extension: the first obtains the workflow
    JSON with an HTTP POST ([Http]), the second from the host's node
    execution ([Host]).  Both register [onNodeCreated], which adds a
    button whose callback, [updateDynamicInputs], rebuilds the node's
    [dyn_] widgets from the workflow JSON.

    JavaScript values are an inductive type, widget objects live in a
    store and are named by references (the handler keeps the button and
    the path widget in closure variables and mutates the button in
    place), and the handler runs in a state-and-exception monad whose
    state also records, in order, the calls made to the host and the
    writes to host-visible properties.

    The network and the host's node execution are parameters of the
    handlers: functions that say what a request or a run answers.  A run
    of the handler is one step of the model; what the host does while the
    handler awaits is outside it. *)

From Stdlib Require Import ZArith String List Lia.
From Stdlib.Floats Require Import SpecFloat.
From stdpp Require Import base option list strings pretty.

Open Scope string_scope.
Open Scope list_scope.

(** ** JavaScript values *)

(** Numbers are IEEE-754 doubles, as [spec_float].  The properties of an
    object are listed in the order [for (k in o)] visits them; an object
    holds each key once. *)
#[warnings="-register-all"]
Inductive value : Type :=
| VUndefined
| VNull
| VBool (b : bool)
| VNum (x : spec_float)
| VStr (s : string)
| VArr (elems : list value)
| VObj (props : list (string * value)).

(** What is thrown, or what a promise is rejected with. *)
Inductive exn : Type :=
| Error (msg : string)
| TypeError (msg : string)
| SyntaxError (msg : string).

(** How an evaluation, or a promise, ends. *)
Inductive result (A : Type) : Type :=
| Ok (a : A)
| Throw (e : exn).
Arguments Ok {A} a.
Arguments Throw {A} e.

(** [typeof v] *)
Definition typeof (v : value) : string :=
  match v with
  | VUndefined => "undefined"
  | VNull => "object"
  | VBool _ => "boolean"
  | VNum _ => "number"
  | VStr _ => "string"
  | VArr _ => "object"
  | VObj _ => "object"
  end.

(** The truthiness test behind [!v] and [a || b]. *)
Definition ToBoolean (v : value) : bool :=
  match v with
  | VUndefined | VNull => false
  | VBool b => b
  | VNum (S754_zero _) | VNum S754_nan => false
  | VNum _ => true
  | VStr s => negb (s =? "")
  | VArr _ | VObj _ => true
  end.

(** [Number.isInteger(v)]: a finite number [m * 2^e] without fraction. *)
Definition Number_isInteger (v : value) : bool :=
  match v with
  | VNum (S754_zero _) => true
  | VNum (S754_finite _ m e) =>
      (0 <=? e)%Z || (Z.pos m mod 2 ^ (- e) =? 0)%Z
  | _ => false
  end.

(** [name.startsWith(prefix)] *)
Definition startsWith (name prefix : string) : bool := String.prefix prefix name.

(** [list.includes(x)] on strings *)
Definition includes (l : list string) (x : string) : bool :=
  existsb (String.eqb x) l.

(** A string holds the UTF-8 bytes of a JavaScript string (a lone
    surrogate as the three bytes of its code), while JavaScript counts
    and indexes a string by UTF-16 code unit. *)

(** The code points of a sequence of UTF-8 bytes; [pending] is what has
    been read of a code point that has [more] bytes to come. *)
Fixpoint code_points (pending : N) (more : nat) (bytes : list N) : list N :=
  match bytes with
  | [] => []
  | b :: rest =>
      match more with
      | 1 => (pending * 64 + b mod 64)%N :: code_points 0 0 rest
      | S more => code_points (pending * 64 + b mod 64) more rest
      | 0 =>
          if (b <? 128)%N then b :: code_points 0 0 rest
          else if (b <? 224)%N then code_points (b mod 32) 1 rest
          else if (b <? 240)%N then code_points (b mod 16) 2 rest
          else code_points (b mod 8) 3 rest
      end
  end.

(** The UTF-16 code units of a code point: itself, or a surrogate pair. *)
Definition code_units (c : N) : list N :=
  if (c <? 65536)%N then [c]
  else [(55296 + (c - 65536) / 1024)%N; (56320 + (c - 65536) mod 1024)%N].

(** The code units of a string, and the string of one code unit. *)
Definition utf16 (s : string) : list N :=
  flat_map code_units (code_points 0 0 (map Ascii.N_of_ascii (list_ascii_of_string s))).

Definition unit_string (u : N) : string :=
  string_of_list_ascii (map Ascii.ascii_of_N
    (if (u <? 128)%N then [u]
     else if (u <? 2048)%N then [(192 + u / 64)%N; (128 + u mod 64)%N]
     else [(224 + u / 4096)%N; (128 + (u / 64) mod 64)%N; (128 + u mod 64)%N])).

(** The one-character strings [s[0]], [s[1]], ... of a string, and the
    index properties of an array or a string. *)
Definition chars (s : string) : list value :=
  map (λ u, VStr (unit_string u)) (utf16 s).

Definition index_props (l : list value) : list (string * value) :=
  imap (λ i v, (pretty i, v)) l.

(** The own enumerable properties of a value, in enumeration order. *)
Definition own_props (v : value) : list (string * value) :=
  match v with
  | VObj props => props
  | VArr elems => index_props elems
  | VStr s => index_props (chars s)
  | _ => []
  end.

(** The keys [for (k in v)] visits; nothing for [null] and [undefined]. *)
Definition for_in (v : value) : list string := (own_props v).*1.

Fixpoint lookup_prop (k : string) (props : list (string * value)) : value :=
  match props with
  | [] => VUndefined
  | (k', v) :: rest => if k =? k' then v else lookup_prop k rest
  end.

(** ** Widgets, inputs and the host's events *)

(** A reference is an index into the store. *)
Abbreviation ref := nat (only parsing).

(** The one callback the extension installs. *)
Inductive callback : Type := UpdateDynamicInputs.

Record widget : Type := Widget {
  wtype : string;
  wname : string;
  wvalue : value;
  wcallback : option callback;
}.

Record input : Type := Input {
  iname : string;
  itype : string;
}.

(** The second argument of [fetch]; [body] is the value handed to
    [JSON.stringify]. *)
Record RequestInit : Type := {
  method : string;
  headers : list (string * string);
  body : value;
}.

Record Response : Type := {
  ok : bool;
  statusText : string;
  json : result value;
}.

(** What a run does that the host can see: its calls ([alert],
    [console.error], [console.debug], [fetch], [runNode], [addWidget],
    [setDirtyCanvas]) and its writes to a widget's [name] and [callback]
    and to [this.widgets] and [this.inputs]. *)
Inductive event : Type :=
| EAlert (msg : string)
| EConsoleError (msg : string) (error : exn)
| EConsoleDebug (msg : string) (ws : list ref)
| EFetch (url : value) (init : RequestInit)
| ERunNode (id : value)
| EAddWidget (type name : string) (v : value)
| ESetDirtyCanvas (b : bool)
| ESetName (r : ref) (name : string)
| ESetCallback (r : ref)
| ESetWidgets (ws : list ref)
| ESetInputs (ins : list input).

(** The node ([this]) with the store its widget references point into;
    [this.widgets] and [this.inputs] are arrays, and [trace] lists the
    events so far, oldest first. *)
Record world : Type := World {
  store : list widget;
  this_id : value;
  this_widgets : list ref;
  this_inputs : list input;
  trace : list event;
}.

(** ** The monad *)

(** A computation changes the world and returns or throws; what it did
    to the world before it threw stays done. *)
Definition M (A : Type) : Type := world → result A * world.

#[global] Instance M_ret : MRet M := λ A a w, (Ok a, w).

#[global] Instance M_bind : MBind M := λ A B f m w,
  match m w with
  | (Ok a, w') => f a w'
  | (Throw e, w') => (Throw e, w')
  end.

Definition throw {A : Type} (e : exn) : M A := λ w, (Throw e, w).

(** [try { c }], with the outcome handed to the code that follows. *)
Definition attempt {A : Type} (c : M A) : M (result A) := λ w,
  let (r, w') := c w in (Ok r, w').

Fixpoint for_each {A : Type} (l : list A) (body : A → M unit) : M unit :=
  match l with
  | [] => mret tt
  | x :: rest => body x;; for_each rest body
  end.

(** ** World updates *)

Definition log (evs : list event) (w : world) : world :=
  World (store w) (this_id w) (this_widgets w) (this_inputs w) (trace w ++ evs).

Definition set_wname (name : string) (x : widget) : widget :=
  Widget (wtype x) name (wvalue x) (wcallback x).

Definition set_wcallback (c : callback) (x : widget) : widget :=
  Widget (wtype x) (wname x) (wvalue x) (Some c).

Definition set_wvalue (v : value) (x : widget) : widget :=
  Widget (wtype x) (wname x) v (wcallback x).

Definition update_store (f : widget → widget) (r : ref) (w : world) : world :=
  World (alter f r (store w)) (this_id w) (this_widgets w) (this_inputs w) (trace w).

(** [w.name] for the widget behind [r]. *)
Definition name_at (st : list widget) (r : ref) : string :=
  default "" (wname <$> st !! r).

(** [w.value] for the widget behind [r]. *)
Definition value_at (st : list widget) (r : ref) : value :=
  default VUndefined (wvalue <$> st !! r).

(** ** Host primitives *)

Definition emit (e : event) : M unit := λ w, (Ok tt, log [e] w).

Definition alert (msg : string) : M unit := emit (EAlert msg).

Definition console_error (msg : string) (error : exn) : M unit :=
  emit (EConsoleError msg error).

Definition console_debug (msg : string) : M unit := λ w,
  (Ok tt, log [EConsoleDebug msg (this_widgets w)] w).

Definition setDirtyCanvas (b : bool) : M unit := emit (ESetDirtyCanvas b).

(** Modelled from the spec: the host's [addWidget] is not part of the
    repository.  It makes a widget of the given type, name and value,
    appends it to [this.widgets] and returns it. *)
Definition addWidget (type name : string) (v : value) : M ref := λ w,
  let r := length (store w) in
  (Ok r, World (store w ++ [Widget type name v None]) (this_id w)
            (this_widgets w ++ [r]) (this_inputs w)
            (trace w ++ [EAddWidget type name v])).

(** [o[k]] and [o.k]: a [TypeError] on [null] and [undefined]. *)
Definition get (o : value) (k : string) : M value :=
  match o with
  | VUndefined => throw (TypeError "Cannot read properties of undefined")
  | VNull => throw (TypeError "Cannot read properties of null")
  | _ => mret (lookup_prop k (own_props o))
  end.

(** [r.value] *)
Definition get_value (r : ref) : M value := λ w, (Ok (value_at (store w) r), w).

(** [r.name = name] *)
Definition set_name (r : ref) (name : string) : M unit := λ w,
  (Ok tt, log [ESetName r name] (update_store (set_wname name) r w)).

(** [r.callback = updateDynamicInputs] *)
Definition set_callback (r : ref) : M unit := λ w,
  (Ok tt, log [ESetCallback r] (update_store (set_wcallback UpdateDynamicInputs) r w)).

(** [this.widgets.find((w) => w.name === name)] *)
Definition find_widget (name : string) : M (option ref) := λ w,
  (Ok (List.find (λ r, name_at (store w) r =? name) (this_widgets w)), w).

(** [this.widgets = this.widgets.filter((w) => !w.name.startsWith(prefix))] *)
Definition filter_widgets (prefix : string) : M unit := λ w,
  let ws := List.filter (λ r, negb (startsWith (name_at (store w) r) prefix))
              (this_widgets w) in
  (Ok tt, World (store w) (this_id w) ws (this_inputs w) (trace w ++ [ESetWidgets ws])).

(** [this.inputs = this.inputs.filter((i) => !i.name.startsWith(prefix))] *)
Definition filter_inputs (prefix : string) : M unit := λ w,
  let ins := List.filter (λ i, negb (startsWith (iname i) prefix)) (this_inputs w) in
  (Ok tt, World (store w) (this_id w) (this_widgets w) ins (trace w ++ [ESetInputs ins])).

(** ** The two data sources *)

(** What the network answers to [fetch(url, init)], and what the host
    answers to [this.graph.runNode(id)]: a value, or an exception. *)
Definition network : Type := value → RequestInit → result Response.
Definition graph : Type := value → result value.

(** [await p] for a promise that ends as [r]. *)
Definition settle {A : Type} (r : result A) : M A :=
  match r with
  | Ok a => mret a
  | Throw e => throw e
  end.

(** [await fetch(url, init)] *)
Definition fetch (net : network) (url : value) (init : RequestInit) : M Response :=
  emit (EFetch url init);; settle (net url init).

(** [await response.json()] *)
Definition response_json (response : Response) : M value := settle (json response).

(** [await this.graph.runNode(this.id)] *)
Definition runNode (g : graph) : M value := λ w,
  (emit (ERunNode (this_id w));; settle (g (this_id w))) w.

(** The two texts of the button. *)
Definition idle_label : string := "📝 Refresh Inputs".
Definition loading_label : string := "⏳ Loading...".

(** ** First variant: HTTP fetch *)

Module Http.

Definition fetchWorkflowJSON (net : network) (path : value) : M value :=
  if negb (ToBoolean path) then throw (Error "No path provided")
  else
    response ← fetch net path
      {| method := "POST";
         headers := [("Content-Type", "application/json")];
         body := VObj [("path", path)] |};
    if negb (ok response)
    then throw (Error ("Failed to load JSON: " +:+ statusText response))
    else
      workflowJSON ← response_json response;
      mret workflowJSON.

Definition updateDynamicInputs (net : network)
    (workflowPathWidget : option ref) (refreshButtonWidget : ref) : M unit :=
  match workflowPathWidget with
  | None => alert "Please provide a valid workflow path."
  | Some pathWidget =>
    path ← get_value pathWidget;
    if negb (ToBoolean path) then alert "Please provide a valid workflow path."
    else
      set_name refreshButtonWidget "⏳ Loading...";;
      fetched ← attempt (path ← get_value pathWidget; fetchWorkflowJSON net path);
      match fetched with
      | Throw error =>
          console_error "Error loading workflow JSON:" error;;
          alert "Error loading workflow JSON. See console.";;
          set_name refreshButtonWidget "📝 Refresh Inputs"
      | Ok workflowJSON =>
          filter_widgets "dyn_";;
          filter_inputs "dyn_";;
          for_each (for_in workflowJSON) (λ nodeId,
            node ← get workflowJSON nodeId;
            node_inputs ← get node "inputs";
            let inputs := if ToBoolean node_inputs then node_inputs else VObj [] in
            for_each (for_in inputs) (λ key,
              value ← get inputs key;
              if includes ["string"; "number"; "boolean"] (typeof value) then
                let widgetName := "dyn_" +:+ nodeId +:+ "_" +:+ key in
                let type := "STRING" in
                let type :=
                  if typeof value =? "number"
                  then (if Number_isInteger value then "INT" else "FLOAT")
                  else type in
                let type := if typeof value =? "boolean" then "BOOLEAN" else type in
                addWidget type widgetName value;; mret tt
              else mret tt));;
          set_name refreshButtonWidget "📝 Refresh Inputs";;
          setDirtyCanvas true;;
          console_debug "Dynamic inputs updated:"
      end
  end.

(** The hook run once per node; it returns the two widgets the handler
    closes over.  The node definition's own [onNodeCreated] has run. *)
Definition onNodeCreated : M (option ref * ref) :=
  workflowPathWidget ← find_widget "workflow_path";
  refreshButtonWidget ← addWidget "button" "📝 Refresh Inputs" VUndefined;
  set_callback refreshButtonWidget;;
  mret (workflowPathWidget, refreshButtonWidget).

End Http.

(** ** Second variant: the host runs the node *)

Module Host.

Definition fetchWorkflowJSON (g : graph) (path : value) : M value :=
  result ← runNode g;
  if negb (ToBoolean result) then throw (Error "No workflow JSON returned")
  else mret result.

Definition updateDynamicInputs (g : graph)
    (workflowPathWidget : option ref) (refreshButtonWidget : ref) : M unit :=
  match workflowPathWidget with
  | None => alert "Please provide a valid workflow path."
  | Some pathWidget =>
    path ← get_value pathWidget;
    if negb (ToBoolean path) then alert "Please provide a valid workflow path."
    else
      set_name refreshButtonWidget "⏳ Loading...";;
      fetched ← attempt (path ← get_value pathWidget; fetchWorkflowJSON g path);
      match fetched with
      | Throw error =>
          console_error "Error loading workflow JSON:" error;;
          alert "Error loading workflow JSON. See console.";;
          set_name refreshButtonWidget "📝 Refresh Inputs"
      | Ok workflowJSON =>
          filter_widgets "dyn_";;
          filter_inputs "dyn_";;
          for_each (for_in workflowJSON) (λ nodeId,
            node ← get workflowJSON nodeId;
            node_inputs ← get node "inputs";
            let inputs := if ToBoolean node_inputs then node_inputs else VObj [] in
            for_each (for_in inputs) (λ key,
              value ← get inputs key;
              if includes ["string"; "number"; "boolean"] (typeof value) then
                let widgetName := "dyn_" +:+ nodeId +:+ "_" +:+ key in
                let type := "STRING" in
                let type :=
                  if typeof value =? "number"
                  then (if Number_isInteger value then "INT" else "FLOAT")
                  else type in
                let type := if typeof value =? "boolean" then "BOOLEAN" else type in
                addWidget type widgetName value;; mret tt
              else mret tt));;
          set_name refreshButtonWidget "📝 Refresh Inputs";;
          setDirtyCanvas true;;
          console_debug "Dynamic inputs updated:"
      end
  end.

Definition onNodeCreated : M (option ref * ref) :=
  workflowPathWidget ← find_widget "workflow_path";
  refreshButtonWidget ← addWidget "button" "📝 Refresh Inputs" VUndefined;
  set_callback refreshButtonWidget;;
  mret (workflowPathWidget, refreshButtonWidget).

End Host.

(** ** The rebuild, as the specification words it *)

(** The definitions of this part follow the specification, not the
    source: one handler over an injected data source, and the widgets a
    response calls for.  The handlers above are compared with them. *)

(** The handler with the data source as a parameter: the "single
    injectable data-fetch capability" of the design notes. *)
Definition refresh_with (fetchWorkflowJSON : value → M value)
    (workflowPathWidget : option ref) (refreshButtonWidget : ref) : M unit :=
  match workflowPathWidget with
  | None => alert "Please provide a valid workflow path."
  | Some pathWidget =>
    path ← get_value pathWidget;
    if negb (ToBoolean path) then alert "Please provide a valid workflow path."
    else
      set_name refreshButtonWidget loading_label;;
      fetched ← attempt (path ← get_value pathWidget; fetchWorkflowJSON path);
      match fetched with
      | Throw error =>
          console_error "Error loading workflow JSON:" error;;
          alert "Error loading workflow JSON. See console.";;
          set_name refreshButtonWidget idle_label
      | Ok workflowJSON =>
          filter_widgets "dyn_";;
          filter_inputs "dyn_";;
          for_each (for_in workflowJSON) (λ nodeId,
            node ← get workflowJSON nodeId;
            node_inputs ← get node "inputs";
            let inputs := if ToBoolean node_inputs then node_inputs else VObj [] in
            for_each (for_in inputs) (λ key,
              value ← get inputs key;
              if includes ["string"; "number"; "boolean"] (typeof value) then
                let widgetName := "dyn_" +:+ nodeId +:+ "_" +:+ key in
                let type := "STRING" in
                let type :=
                  if typeof value =? "number"
                  then (if Number_isInteger value then "INT" else "FLOAT")
                  else type in
                let type := if typeof value =? "boolean" then "BOOLEAN" else type in
                addWidget type widgetName value;; mret tt
              else mret tt));;
          set_name refreshButtonWidget idle_label;;
          setDirtyCanvas true;;
          console_debug "Dynamic inputs updated:"
      end
  end.

(** The kind of widget a field value calls for: integers an INT widget,
    other numbers a FLOAT widget, booleans a BOOLEAN widget, strings a
    STRING widget, anything else none. *)
Definition widget_kind (v : value) : option string :=
  match v with
  | VNum _ => Some (if Number_isInteger v then "INT" else "FLOAT")
  | VBool _ => Some "BOOLEAN"
  | VStr _ => Some "STRING"
  | _ => None
  end.

(** The fields of a value: its keys with what is read under them. *)
Definition fields (o : value) : list (string * value) :=
  map (λ k, (k, lookup_prop k (own_props o))) (for_in o).

(** [node.inputs || {}] *)
Definition inputs_of (node : value) : value :=
  let node_inputs := lookup_prop "inputs" (own_props node) in
  if ToBoolean node_inputs then node_inputs else VObj [].

(** The widget of one field of node [nodeId], if its value is a scalar. *)
Definition field_widget (nodeId : string) (field : string * value) : list widget :=
  match widget_kind field.2 with
  | Some kind => [Widget kind ("dyn_" +:+ nodeId +:+ "_" +:+ field.1) field.2 None]
  | None => []
  end.

Definition node_widgets (entry : string * value) : list widget :=
  flat_map (field_widget entry.1) (fields (inputs_of entry.2)).

(** One widget per scalar field under [inputs], node after node. *)
Definition dynamic_widgets (workflowJSON : value) : list widget :=
  flat_map node_widgets (fields workflowJSON).

Definition nullish (v : value) : bool :=
  match v with
  | VUndefined | VNull => true
  | _ => false
  end.

(** No node entry of the response is [null] or [undefined]. *)
Definition well_shaped (workflowJSON : value) : bool :=
  forallb (λ entry, negb (nullish entry.2)) (fields workflowJSON).

(** ** Observations *)

(** The node's widgets, read through the store. *)
Definition widgets_of (w : world) : list widget :=
  omap (λ r, store w !! r) (this_widgets w).

(** The events a run from [w] to [w'] has added. *)
Definition new_events (w w' : world) : list event :=
  drop (length (trace w)) (trace w').

Definition addWidget_call (e : event) : list widget :=
  match e with
  | EAddWidget type name v => [Widget type name v None]
  | _ => []
  end.

(** The widgets asked of [addWidget], in order. *)
Definition addWidget_calls (evs : list event) : list widget :=
  flat_map addWidget_call evs.

Definition is_transport (e : event) : bool :=
  match e with
  | EFetch _ _ | ERunNode _ => true
  | _ => false
  end.

Definition is_dirty_mark (e : event) : bool :=
  match e with
  | ESetDirtyCanvas _ => true
  | _ => false
  end.

Definition is_dynamic (name : string) : bool := startsWith name "dyn_".

(** The button is a widget of the store and the node's widgets are too. *)
Definition wf_world (refreshButtonWidget : ref) (w : world) : Prop :=
  refreshButtonWidget < length (store w) ∧
  Forall (λ r, r < length (store w)) (this_widgets w).

(** The request of the first variant for [path]. *)
Definition request (path : value) : RequestInit :=
  {| method := "POST";
     headers := [("Content-Type", "application/json")];
     body := VObj [("path", path)] |}.

(** The user edits a widget's value. *)
Definition user_sets_value (r : ref) (v : value) (w : world) : world :=
  update_store (set_wvalue v) r w.

(** ** The handler in closed form *)

(** The pieces of a run, as functions on worlds; they are shown below to
    be what the handlers compute. *)

(** The call that adds the widget [x]. *)
Definition add_event (x : widget) : event :=
  EAddWidget (wtype x) (wname x) (wvalue x).

(** The world after the host has added the widgets [ws], one by one. *)
Definition add_widgets (ws : list widget) (w : world) : world :=
  World (store w ++ ws) (this_id w)
        (this_widgets w ++ seq (length (store w)) (length ws)) (this_inputs w)
        (trace w ++ map add_event ws).

(** The bodies of the two loops of the handler. *)
Definition field_step (nodeId : string) (inputs : value) (key : string) : M unit :=
  value ← get inputs key;
  if includes ["string"; "number"; "boolean"] (typeof value) then
    let widgetName := "dyn_" +:+ nodeId +:+ "_" +:+ key in
    let type := "STRING" in
    let type :=
      if typeof value =? "number"
      then (if Number_isInteger value then "INT" else "FLOAT")
      else type in
    let type := if typeof value =? "boolean" then "BOOLEAN" else type in
    addWidget type widgetName value;; mret tt
  else mret tt.

Definition node_step (workflowJSON : value) (nodeId : string) : M unit :=
  node ← get workflowJSON nodeId;
  node_inputs ← get node "inputs";
  let inputs := if ToBoolean node_inputs then node_inputs else VObj [] in
  for_each (for_in inputs) (field_step nodeId inputs).

(** The entries the outer loop gets through: those before the first
    [null] or [undefined] one. *)
Fixpoint entries_done (entries : list (string * value)) : list (string * value) :=
  match entries with
  | [] => []
  | entry :: rest => if nullish entry.2 then [] else entry :: entries_done rest
  end.

Definition first_nullish (entries : list (string * value)) : option value :=
  snd <$> List.find (λ entry, nullish entry.2) entries.

(** What the rebuild loop returns: normally, or with the [TypeError] of
    the first [null] or [undefined] entry. *)
Definition rebuild_result (entries : list (string * value)) : result unit :=
  match first_nullish entries with
  | None => Ok tt
  | Some VNull => Throw (TypeError "Cannot read properties of null")
  | Some _ => Throw (TypeError "Cannot read properties of undefined")
  end.

(** The alert of the missing path. *)
Definition missing_path_alert : event := EAlert "Please provide a valid workflow path.".

(** The world once the label shows the loading text. *)
Definition after_loading (refreshButtonWidget : ref) (w : world) : world :=
  log [ESetName refreshButtonWidget loading_label]
      (update_store (set_wname loading_label) refreshButtonWidget w).

(** The world once the [dyn_] widgets and inputs are filtered out. *)
Definition cleared (w : world) : world :=
  let ws := List.filter (λ r, negb (is_dynamic (name_at (store w) r))) (this_widgets w) in
  let ins := List.filter (λ i, negb (is_dynamic (iname i))) (this_inputs w) in
  World (store w) (this_id w) ws ins (trace w ++ [ESetWidgets ws; ESetInputs ins]).

(** The end of a refresh that went through. *)
Definition finished (refreshButtonWidget : ref) (w : world) : world :=
  log [ESetName refreshButtonWidget idle_label; ESetDirtyCanvas true;
       EConsoleDebug "Dynamic inputs updated:" (this_widgets w)]
      (update_store (set_wname idle_label) refreshButtonWidget w).

(** The end of a refresh whose fetch failed with [error]. *)
Definition failed (refreshButtonWidget : ref) (error : exn) (w : world) : world :=
  log [EConsoleError "Error loading workflow JSON:" error;
       EAlert "Error loading workflow JSON. See console.";
       ESetName refreshButtonWidget idle_label]
      (update_store (set_wname idle_label) refreshButtonWidget w).

(** What [fetchWorkflowJSON] makes of the answer of its data source. *)
Definition http_outcome (net : network) (path : value) : result value :=
  match net path (request path) with
  | Throw e => Throw e
  | Ok response =>
      if ok response then json response
      else Throw (Error ("Failed to load JSON: " +:+ statusText response))
  end.

Definition host_outcome (g : graph) (id : value) : result value :=
  match g id with
  | Throw e => Throw e
  | Ok v => if ToBoolean v then Ok v else Throw (Error "No workflow JSON returned")
  end.

(** The network answers [path] with an ok response that parses to
    [workflowJSON]. *)
Inductive http_returns (net : network) (path workflowJSON : value) : Prop :=
| http_ok response :
    net path (request path) = Ok response →
    ok response = true →
    json response = Ok workflowJSON →
    http_returns net path workflowJSON.

(** The three ways the first variant's fetch fails. *)
Inductive http_fails (net : network) (path : value) : exn → Prop :=
| fetch_throws e :
    net path (request path) = Throw e → http_fails net path e
| response_not_ok response :
    net path (request path) = Ok response →
    ok response = false →
    http_fails net path (Error ("Failed to load JSON: " +:+ statusText response))
| json_fails response e :
    net path (request path) = Ok response →
    ok response = true →
    json response = Throw e →
    http_fails net path e.

(** The host's run of node [id] returns the truthy [workflowJSON]. *)
Inductive host_returns (g : graph) (id workflowJSON : value) : Prop :=
| host_ok :
    g id = Ok workflowJSON →
    ToBoolean workflowJSON = true →
    host_returns g id workflowJSON.

(** The two ways the second variant's fetch fails. *)
Inductive host_fails (g : graph) (id : value) : exn → Prop :=
| run_throws e :
    g id = Throw e → host_fails g id e
| run_returns_nothing v :
    g id = Ok v →
    ToBoolean v = false →
    host_fails g id (Error "No workflow JSON returned").

(** The world while the handler awaits its data source: the label shows
    the loading text and the call [transport] is out. *)
Definition awaiting (btn : ref) (transport : event) (w : world) : world :=
  log [transport] (after_loading btn w).

(** What the handler does from the world [w2] once the data source has
    answered [r]. *)
Definition resume (btn : ref) (r : result value) (w2 : world) :
    result unit * world :=
  match r with
  | Throw error => (Ok tt, failed btn error w2)
  | Ok workflowJSON =>
      let w3 := add_widgets
                  (flat_map node_widgets (entries_done (fields workflowJSON)))
                  (cleared w2) in
      match rebuild_result (fields workflowJSON) with
      | Ok _ => (Ok tt, finished btn w3)
      | Throw e => (Throw e, w3)
      end
  end.

(** What a refresh with a path does once the data source, reached by the
    event [transport], has answered [r]. *)
Definition refresh_end (btn : ref) (transport : event) (r : result value)
    (w : world) : result unit * world :=
  resume btn r (awaiting btn transport w).

(** The references and the inputs the two filters keep. *)
Definition kept_refs (btn : ref) (w : world) : list ref :=
  List.filter
    (λ r, negb (is_dynamic (name_at (alter (set_wname loading_label) btn (store w)) r)))
    (this_widgets w).

Definition kept_inputs (w : world) : list input :=
  List.filter (λ i, negb (is_dynamic (iname i))) (this_inputs w).

(** The events of a refresh after the data source has answered. *)
Definition tail_events (btn : ref) (r : result value) (w : world) : list event :=
  match r with
  | Throw error =>
      [EConsoleError "Error loading workflow JSON:" error;
       EAlert "Error loading workflow JSON. See console.";
       ESetName btn idle_label]
  | Ok workflowJSON =>
      let created := flat_map node_widgets (entries_done (fields workflowJSON)) in
      [ESetWidgets (kept_refs btn w); ESetInputs (kept_inputs w)] ++
      map add_event created ++
      match rebuild_result (fields workflowJSON) with
      | Ok _ =>
          [ESetName btn idle_label; ESetDirtyCanvas true;
           EConsoleDebug "Dynamic inputs updated:"
             (kept_refs btn w ++ seq (length (store w)) (length created))]
      | Throw _ => []
      end
  end.

(** ** The paths of the handler and what they leave behind *)

(** [workflowPathWidget.value] *)
Definition path_of (pathWidget : ref) (w : world) : value :=
  value_at (store w) pathWidget.

(** [!workflowPathWidget || !workflowPathWidget.value] *)
Definition path_missing (workflowPathWidget : option ref) (w : world) : bool :=
  match workflowPathWidget with
  | None => true
  | Some pathWidget => negb (ToBoolean (path_of pathWidget w))
  end.

(** The run returned after the one alert, the node as it was. *)
Definition only_alerts (w : world) (out : result unit * world) : Prop :=
  out.1 = Ok tt ∧
  new_events w out.2 = [EAlert "Please provide a valid workflow path."] ∧
  store out.2 = store w ∧
  this_widgets out.2 = this_widgets w ∧
  this_inputs out.2 = this_inputs w.

(** The run asked the data source once, logged [error], alerted, and
    returned with the lists as they were and the label idle. *)
Definition fetch_failure (btn : ref) (transport : event) (error : exn)
    (w : world) (out : result unit * world) : Prop :=
  out.1 = Ok tt ∧
  new_events w out.2 =
    [ESetName btn loading_label; transport;
     EConsoleError "Error loading workflow JSON:" error;
     EAlert "Error loading workflow JSON. See console.";
     ESetName btn idle_label] ∧
  this_widgets out.2 = this_widgets w ∧
  this_inputs out.2 = this_inputs w ∧
  store out.2 = alter (set_wname idle_label) btn (store w).

(** How many times the canvas was marked dirty. *)
Definition count_dirty (evs : list event) : nat :=
  length (List.filter is_dirty_mark evs).

(** The canvas was marked dirty once, after the widgets of [v] were
    asked of the host, and the node's list was final by then. *)
Definition dirty_once_after_update (w : world) (v : value)
    (out : result unit * world) : Prop :=
  count_dirty (new_events w out.2) = 1 ∧
  ∃ updates,
    new_events w out.2 =
      updates ++ [ESetDirtyCanvas true;
                  EConsoleDebug "Dynamic inputs updated:" (this_widgets out.2)] ∧
    count_dirty updates = 0 ∧
    addWidget_calls updates = dynamic_widgets v.

(** The canvas was not marked dirty. *)
Definition never_dirty (w : world) (out : result unit * world) : Prop :=
  count_dirty (new_events w out.2) = 0.

(** Every input and widget that is not a [dyn_] one is still in its list,
    in order and ahead of the new widgets, and no stored widget changed
    but for the button's label. *)
Definition preserves_static (btn : ref) (w : world)
    (out : result unit * world) : Prop :=
  this_inputs out.2 =
    List.filter (λ i, negb (is_dynamic (iname i))) (this_inputs w) ∧
  (∃ added,
     this_widgets out.2 =
       List.filter (λ r, negb (is_dynamic (name_at (store w) r))) (this_widgets w)
       ++ added ∧
     Forall (λ r, (length (store w) ≤ r)%nat) added) ∧
  (∀ r x, store w !! r = Some x →
     store out.2 !! r = Some (if decide (r = btn) then set_wname idle_label x else x)).

(** The [dyn_] inputs are gone, the node's [dyn_] widgets are those of
    the response [v], and the lists were filtered before the first
    widget was added. *)
Definition replaces_dynamic (w : world) (v : value)
    (out : result unit * world) : Prop :=
  this_inputs out.2 =
    List.filter (λ i, negb (is_dynamic (iname i))) (this_inputs w) ∧
  List.filter (λ x, is_dynamic (wname x)) (widgets_of out.2) = dynamic_widgets v ∧
  ∃ kept before after,
    this_widgets out.2 =
      kept ++ seq (length (store w)) (length (dynamic_widgets v)) ∧
    new_events w out.2 =
      before ++ [ESetWidgets kept; ESetInputs (this_inputs out.2)] ++
      map add_event (dynamic_widgets v) ++ after ∧
    addWidget_calls before = [] ∧
    addWidget_calls after = [].

(** The run [out'] went through and left the lists of [out]. *)
Definition same_lists (out out' : result unit * world) : Prop :=
  out'.1 = Ok tt ∧
  widgets_of out'.2 = widgets_of out.2 ∧
  this_inputs out'.2 = this_inputs out.2.

(** The run went through, the widgets it asked of the host are those of
    the fields of [v], one for one, and they end the node's list. *)
Definition creates_dynamic_widgets (w : world) (v : value)
    (out : result unit * world) : Prop :=
  out.1 = Ok tt ∧
  addWidget_calls (new_events w out.2) = dynamic_widgets v ∧
  ∃ kept,
    widgets_of out.2 = kept ++ dynamic_widgets v ∧
    Forall (λ x, is_dynamic (wname x) = false) kept.

(** What a run does to the button's label: it writes the two texts only;
    on the missing path it leaves the label alone; with a path it starts
    by writing the loading text and, when it returns, has written the
    idle text. *)
Definition label_toggles (wp : option ref) (btn : ref) (w : world)
    (out : result unit * world) : Prop :=
  (∀ r name, In (ESetName r name) (new_events w out.2) →
     r = btn ∧ (name = idle_label ∨ name = loading_label)) ∧
  (path_missing wp w = true →
     name_at (store out.2) btn = name_at (store w) btn) ∧
  (path_missing wp w = false →
     (∃ rest, new_events w out.2 = ESetName btn loading_label :: rest) ∧
     (out.1 = Ok tt → name_at (store out.2) btn = idle_label)).

(** The two runs agree on the result, the store, the lists and, but for
    the call to the data source, the events. *)
Definition same_outcome (w : world) (out1 out2 : result unit * world) : Prop :=
  out1.1 = out2.1 ∧
  store out1.2 = store out2.2 ∧
  this_widgets out1.2 = this_widgets out2.2 ∧
  this_inputs out1.2 = this_inputs out2.2 ∧
  List.filter (λ e, negb (is_transport e)) (new_events w out1.2) =
  List.filter (λ e, negb (is_transport e)) (new_events w out2.2).

(** The button is a stored widget, labelled with one of the two texts,
    and the node's widgets are stored. *)
Definition handler_ready (btn : ref) (w : world) : Prop :=
  wf_world btn w ∧
  (name_at (store w) btn = idle_label ∨ name_at (store w) btn = loading_label).

(** ** Examples *)

(** A double that is the integer [m]. *)
Definition num (m : positive) : value := VNum (S754_finite false m 0).

Definition example_node : world :=
  World [Widget "text" "workflow_path" (VStr "wf.json") None] (num 7) [0]
        [Input "dyn_old" "INT"; Input "image" "IMAGE"] [].

(** The node after [onNodeCreated]: the path widget is 0, the button 1. *)
Definition example_created : world := (Http.onNodeCreated example_node).2.

Definition answers (v : value) : network :=
  λ _ _, Ok {| ok := true; statusText := "OK"; json := Ok v |}.

Definition answers_status (text : string) : network :=
  λ _ _, Ok {| ok := false; statusText := text; json := Ok VNull |}.

Definition runs_to (v : value) : graph := λ _, Ok v.

Definition example_workflow : value :=
  VObj [("3", VObj [("inputs",
                     VObj [("seed", num 5);
                           ("cfg", VNum (S754_finite false 15 (-1)));
                           ("text", VStr "hi");
                           ("on", VBool true);
                           ("model", VArr [VStr "4"; VNum (S754_zero false)]);
                           ("x", VNull)]);
                    ("class_type", VStr "KSampler")]);
        ("4", VObj [("class_type", VStr "Loader")])].

Definition broken_workflow : value :=
  VObj [("1", VNull); ("2", VObj [("inputs", VObj [("a", num 1)])])].

(** The node after a refresh that stopped at a [null] entry, and after
    the user has then emptied the path. *)
Definition example_stuck : world :=
  (Http.updateDynamicInputs (answers broken_workflow) (Some 0) 1 example_created).2.

Definition example_stuck_cleared : world :=
  user_sets_value 0 (VStr "") example_stuck.

(** The node while a first run awaits its fetch, and after the user has
    meanwhile emptied the path. *)
Definition example_waiting : world :=
  awaiting 1 (EFetch (VStr "wf.json") (request (VStr "wf.json"))) example_created.

Definition example_waiting_cleared : world :=
  user_sets_value 0 (VStr "") example_waiting.

(** The node after one refresh with the example workflow. *)
Definition example_refreshed : world :=
  (Http.updateDynamicInputs (answers example_workflow) (Some 0) 1 example_created).2.

(** Three node entries, the second without inputs. *)
Definition example_seed_node : string * value :=
  ("3", VObj [("inputs", VObj [("seed", num 5)])]).

Definition example_bare_node : string * value :=
  ("4", VObj [("class_type", VStr "Loader")]).

Definition example_last_node : string * value :=
  ("5", VObj [("inputs", VObj [("on", VBool true)])]).

(** The node of the example, its path emptied. *)
Definition example_cleared : world :=
  user_sets_value 0 (VStr "") example_created.

(** A node of another make: it has no path widget. *)
Definition example_plain_node : world :=
  World [Widget "number" "seed" (num 1) None] (num 7) [0] [] [].

(** ** Registration and the life of a node *)

(** [beforeRegisterNodeDef], the same in both files up to the hook's body
    [onNodeCreated]: for a node type of another name it returns at once
    ([None]: the prototype is left alone); otherwise it installs a hook
    that first runs the prototype's own [onNodeCreated], if there is one,
    and then the body. *)
Definition beforeRegisterNodeDef (onNodeCreated : M (option ref * ref))
    (nodeData_name : string) (originalNodeCreated : option (M unit)) :
    option (M (option ref * ref)) :=
  if negb (nodeData_name =? "DynamicWorkflowEditorNode") then None
  else
    Some (match originalNodeCreated with
          | Some original => original;; onNodeCreated
          | None => onNodeCreated
          end).

(** What happens to a node once the hook has run: the button is clicked,
    which runs the handler of the installed variant against what the
    network or the host then answers, or the user edits a widget's value. *)
Inductive action : Type :=
| ClickHttp (net : network)
| ClickHost (g : graph)
| EditValue (r : ref) (v : value).

Definition act (wp : option ref) (btn : ref) (a : action) (w : world) : world :=
  match a with
  | ClickHttp net => (Http.updateDynamicInputs net wp btn w).2
  | ClickHost g => (Host.updateDynamicInputs g wp btn w).2
  | EditValue r v => user_sets_value r v w
  end.

Definition session (wp : option ref) (btn : ref) (actions : list action)
    (w : world) : world :=
  fold_left (λ w a, act wp btn a w) actions w.

(** The button is in place: stored, labelled with one of its two texts
    and in [this.widgets]; so is the path widget the handler closed over,
    under its name. *)
Definition installed (wp : option ref) (btn : ref) (w : world) : Prop :=
  handler_ready btn w ∧
  In btn (this_widgets w) ∧
  match wp with
  | None => True
  | Some pathWidget =>
      pathWidget ≠ btn ∧ In pathWidget (this_widgets w) ∧
      name_at (store w) pathWidget = "workflow_path"
  end.

(** ** More observations *)

(** The widgets of the entries the rebuild loop gets through. *)
Definition rebuilt_widgets (workflowJSON : value) : list widget :=
  flat_map node_widgets (entries_done (fields workflowJSON)).

(** How many times the data source was asked. *)
Definition count_transport (evs : list event) : nat :=
  length (List.filter is_transport evs).

Definition is_alert (e : event) : bool :=
  match e with
  | EAlert _ => true
  | _ => false
  end.

(** The two widgets differ in their name at most. *)
Definition same_but_name (x x' : widget) : Prop :=
  wtype x' = wtype x ∧ wvalue x' = wvalue x ∧ wcallback x' = wcallback x.

(** What every run leaves of the node it found. *)
Definition keeps_static (btn : nat) (w : world) (out : result unit * world) : Prop :=
  (∀ r x, store w !! r = Some x →
     ∃ x', store out.2 !! r = Some x' ∧ same_but_name x x' ∧ (r ≠ btn → x' = x)) ∧
  List.filter (λ i, negb (is_dynamic (iname i))) (this_inputs out.2) =
    List.filter (λ i, negb (is_dynamic (iname i))) (this_inputs w) ∧
  ∃ kept added,
    this_widgets out.2 = kept ++ added ∧
    Forall (λ r, (length (store w) ≤ r)%nat) added ∧
    List.filter (λ r, negb (is_dynamic (name_at (store w) r))) kept =
    List.filter (λ r, negb (is_dynamic (name_at (store w) r))) (this_widgets w).

(** The run threw a [TypeError] out of the rebuild, and by then: the
    inputs were filtered; [this.widgets] was filtered down to the
    references [kept_refs] that the filter, reading the names once the
    label shows the loading text, does not find to start with [dyn_],
    and the references of the widgets added for the entries before the
    offending one follow them; those widgets follow the stored ones,
    which are as they were but for the button's label; the events are
    the label, the call to the data source, the two assignments and the
    additions, and no more.  On a node whose references are valid the
    [dyn_] widgets of the node are then exactly the added ones, and the
    label is left at the loading text. *)
Definition stops_midway (btn : ref) (transport : event) (w : world) (v : value)
    (out : result unit * world) : Prop :=
  (∃ msg, out.1 = Throw (TypeError msg)) ∧
  store out.2 = alter (set_wname loading_label) btn (store w) ++ rebuilt_widgets v ∧
  this_inputs out.2 = List.filter (λ i, negb (is_dynamic (iname i))) (this_inputs w) ∧
  this_widgets out.2 =
    kept_refs btn w ++ seq (length (store w)) (length (rebuilt_widgets v)) ∧
  new_events w out.2 =
    [ESetName btn loading_label; transport;
     ESetWidgets (kept_refs btn w); ESetInputs (this_inputs out.2)] ++
    map add_event (rebuilt_widgets v) ∧
  (wf_world btn w →
     List.filter (λ x, is_dynamic (wname x)) (widgets_of out.2) = rebuilt_widgets v ∧
     List.filter (λ x, negb (is_dynamic (wname x))) (widgets_of out.2) =
       omap (λ r, alter (set_wname loading_label) btn (store w) !! r) (kept_refs btn w) ∧
     name_at (store out.2) btn = loading_label).

(** The run called its data source once if the node had a path and not at
    all if it had none, and showed at most one alert. *)
Definition asks_at_most_once (wp : option ref) (w : world)
    (out : result unit * world) : Prop :=
  count_transport (new_events w out.2) = (if path_missing wp w then 0 else 1) ∧
  (length (List.filter is_alert (new_events w out.2)) ≤ 1)%nat.

(** The button as [onNodeCreated] leaves it. *)
Definition refresh_button : widget :=
  Widget "button" idle_label VUndefined (Some UpdateDynamicInputs).

(** The hook returned the path widget it found, the first of that name,
    and the button, which it appended to the store and to
    [this.widgets], leaving the rest of the node [w1] as it was. *)
Definition button_installed (w1 : world)
    (out : result (option ref * ref) * world) : Prop :=
  ∃ wp,
    out.1 = Ok (wp, length (store w1)) ∧
    wp = List.find (λ r, name_at (store w1) r =? "workflow_path") (this_widgets w1) ∧
    store out.2 = store w1 ++ [refresh_button] ∧
    this_widgets out.2 = this_widgets w1 ++ [length (store w1)] ∧
    this_inputs out.2 = this_inputs w1 ∧
    installed wp (length (store w1)) out.2.

(** The prototype's own hook, if any, on a node. *)
Definition run_original (originalNodeCreated : option (M unit)) : M unit :=
  default (mret tt) originalNodeCreated.

(** [dyn_${nodeId}_${key}] *)
Definition widgetName (nodeId key : string) : string :=
  "dyn_" +:+ nodeId +:+ "_" +:+ key.

(** A node id without an underscore, as the ids of a workflow are. *)
Definition plain_id (nodeId : string) : bool :=
  forallb (λ c, negb (Ascii.eqb c (Ascii.ascii_of_nat 95))) (list_ascii_of_string nodeId).

(** The [dyn_] widgets of the node after a run. *)
Definition dynamic_names (out : result unit * world) : list string :=
  wname <$> List.filter (λ x, is_dynamic (wname x)) (widgets_of out.2).

(** A response with the node ids [a_b] and [a], and under them the keys
    [c] and [b_c]. *)
Definition underscore_workflow (a b c : string) (x y : value) : value :=
  VObj [(a +:+ "_" +:+ b, VObj [("inputs", VObj [(c, x)])]);
        (a, VObj [("inputs", VObj [(b +:+ "_" +:+ c, y)])])].

(** Two clicks, the second while the first run awaits its data source:
    both runs have set the label and made their calls [t1] and [t2];
    then the run that is answered first, with [r1], resumes and runs to
    its end, and after it the other, answered with [r2]. *)
Definition overlapped (btn : ref) (t1 t2 : event) (r1 r2 : result value)
    (w : world) : result unit * world :=
  resume btn r2 (resume btn r1 (awaiting btn t2 (awaiting btn t1 w))).2.

(** * Basic facts *)

(** ** The monad and the host's primitives *)

(** Some values: [typeof null], the doubles 1.5 and 2 (that is
    [3 * 2^-1] and [4 * 2^-1]), the falsy values, the keys of an array
    and of a string. *)
Example typeof_null : typeof VNull = "object".
Proof. reflexivity. Qed.

Example isInteger_doubles :
  Number_isInteger (VNum (S754_finite false 3 (-1))) = false ∧
  Number_isInteger (VNum (S754_finite false 4 (-1))) = true ∧
  Number_isInteger (VNum (S754_infinity false)) = false ∧
  Number_isInteger (VStr "2") = false.
Proof. repeat split. Qed.

Example falsy_values :
  map ToBoolean [VUndefined; VNull; VBool false; VNum (S754_zero true);
                 VNum S754_nan; VStr ""; VStr "0"; VArr []; VObj []]
  = [false; false; false; false; false; false; true; true; true].
Proof. reflexivity. Qed.

Example for_in_array_and_string :
  for_in (VArr [VNull; VBool true]) = ["0"; "1"] ∧
  fields (VStr "ab") = [("0", VStr "a"); ("1", VStr "b")] ∧
  for_in VNull = [].
Proof. repeat split. Qed.

(** A string is enumerated by code unit: one for a character of the
    basic plane, two surrogates for one beyond it. *)
Example string_by_code_unit :
  fields (VStr "né") = [("0", VStr "n"); ("1", VStr "é")] ∧
  for_in (VStr "é") = ["0"] ∧
  utf16 "📝" = [55357%N; 56541%N] ∧
  for_in (VStr "📝") = ["0"; "1"].
Proof. repeat split. Qed.

Section monad_facts.
Context {A B : Type}.

Lemma bind_Ok (m : M A) (f : A → M B) w a w' :
  m w = (Ok a, w') → (m ≫= f) w = f a w'.
Proof. intros H. unfold mbind, M_bind. by rewrite H. Qed.

Lemma bind_Throw (m : M A) (f : A → M B) w e w' :
  m w = (Throw e, w') → (m ≫= f) w = (Throw e, w').
Proof. intros H. unfold mbind, M_bind. by rewrite H. Qed.

Lemma for_each_app (l1 l2 : list A) (body : A → M unit) w :
  for_each (l1 ++ l2) body w =
  match for_each l1 body w with
  | (Ok _, w') => for_each l2 body w'
  | (Throw e, w') => (Throw e, w')
  end.
Proof.
  revert w. induction l1 as [|x l1 IH]; intros w; simpl; [done|].
  unfold mbind, M_bind. destruct (body x w) as [[[]|e] w1]; [apply IH | done].
Qed.
End monad_facts.

Lemma add_widgets_nil w : add_widgets [] w = w.
Proof. destruct w. unfold add_widgets. simpl. by rewrite !app_nil_r. Qed.

Lemma add_widgets_app ws1 ws2 w :
  add_widgets (ws1 ++ ws2) w = add_widgets ws2 (add_widgets ws1 w).
Proof.
  unfold add_widgets. simpl.
  rewrite !length_app, seq_app, map_app, !app_assoc. done.
Qed.

Lemma get_not_nullish o k w :
  nullish o = false → get o k w = (Ok (lookup_prop k (own_props o)), w).
Proof. by destruct o. Qed.

Lemma field_step_adds nodeId inputs key w :
  nullish inputs = false →
  field_step nodeId inputs key w =
  (Ok tt, add_widgets (field_widget nodeId (key, lookup_prop key (own_props inputs))) w).
Proof.
  intros Hin. unfold field_step.
  rewrite (bind_Ok _ _ _ _ _ (get_not_nullish _ _ _ Hin)).
  unfold field_widget. simpl.
  destruct (lookup_prop key (own_props inputs)) as [| |b|x|s|l|l]; simpl;
    by rewrite ?add_widgets_nil.
Qed.

Lemma field_loop_adds nodeId inputs keys w :
  nullish inputs = false →
  for_each keys (field_step nodeId inputs) w =
  (Ok tt, add_widgets
            (flat_map (field_widget nodeId)
               (map (λ k, (k, lookup_prop k (own_props inputs))) keys)) w).
Proof.
  intros Hin. revert w. induction keys as [|k keys IH]; intros w; simpl.
  - by rewrite add_widgets_nil.
  - rewrite (bind_Ok _ _ _ _ _ (field_step_adds _ _ _ _ Hin)).
    by rewrite IH, add_widgets_app.
Qed.

Lemma inputs_of_not_nullish node : nullish (inputs_of node) = false.
Proof.
  unfold inputs_of.
  destruct (ToBoolean (lookup_prop "inputs" (own_props node))) eqn:E; [|done].
  by destruct (lookup_prop "inputs" (own_props node)).
Qed.

(** ** The two loops *)

Lemma node_step_adds workflowJSON nodeId w :
  nullish workflowJSON = false →
  nullish (lookup_prop nodeId (own_props workflowJSON)) = false →
  node_step workflowJSON nodeId w =
  (Ok tt, add_widgets (node_widgets (nodeId, lookup_prop nodeId (own_props workflowJSON))) w).
Proof.
  intros Hv Hnode. unfold node_step.
  rewrite (bind_Ok _ _ _ _ _ (get_not_nullish _ _ _ Hv)).
  rewrite (bind_Ok _ _ _ _ _ (get_not_nullish _ _ _ Hnode)).
  apply (field_loop_adds nodeId (inputs_of _)), inputs_of_not_nullish.
Qed.

Lemma node_step_throws workflowJSON nodeId w :
  nullish workflowJSON = false →
  nullish (lookup_prop nodeId (own_props workflowJSON)) = true →
  node_step workflowJSON nodeId w =
  (rebuild_result [(nodeId, lookup_prop nodeId (own_props workflowJSON))], w).
Proof.
  intros Hv Hnode. unfold node_step.
  rewrite (bind_Ok _ _ _ _ _ (get_not_nullish _ _ _ Hv)).
  by destruct (lookup_prop nodeId (own_props workflowJSON)).
Qed.

Lemma rebuild_result_cons entry rest :
  rebuild_result (entry :: rest) =
  if nullish entry.2 then rebuild_result [entry] else rebuild_result rest.
Proof.
  unfold rebuild_result, first_nullish. simpl.
  by destruct (nullish entry.2).
Qed.

Lemma node_loop_runs workflowJSON keys w :
  nullish workflowJSON = false →
  let entries := map (λ k, (k, lookup_prop k (own_props workflowJSON))) keys in
  for_each keys (node_step workflowJSON) w =
  (rebuild_result entries, add_widgets (flat_map node_widgets (entries_done entries)) w).
Proof.
  intros Hv. simpl. revert w. induction keys as [|k keys IH]; intros w.
  - simpl. by rewrite add_widgets_nil.
  - cbn [for_each map entries_done]. rewrite rebuild_result_cons. cbn [snd].
    destruct (nullish (lookup_prop k (own_props workflowJSON))) eqn:Hk.
    + unfold mbind, M_bind. rewrite (node_step_throws _ _ _ Hv Hk).
      simpl. rewrite add_widgets_nil.
      by destruct (lookup_prop k (own_props workflowJSON)).
    + rewrite (bind_Ok _ _ _ _ _ (node_step_adds _ _ _ Hv Hk)).
      rewrite IH. simpl. by rewrite add_widgets_app.
Qed.

(** The rebuild loop on any response. *)
Lemma rebuild_runs workflowJSON w :
  for_each (for_in workflowJSON) (node_step workflowJSON) w =
  (rebuild_result (fields workflowJSON),
   add_widgets (flat_map node_widgets (entries_done (fields workflowJSON))) w).
Proof.
  destruct (nullish workflowJSON) eqn:Hv.
  - destruct workflowJSON; try done; simpl; by rewrite add_widgets_nil.
  - by apply node_loop_runs.
Qed.

Lemma well_shaped_done entries :
  forallb (λ entry, negb (nullish entry.2)) entries = true →
  entries_done entries = entries ∧ rebuild_result entries = Ok tt.
Proof.
  induction entries as [|entry rest IH]; simpl; [done|].
  rewrite rebuild_result_cons.
  destruct (nullish entry.2); simpl; [done|].
  intros H. destruct (IH H) as [-> ->]. done.
Qed.

Lemma rebuild_result_Ok entries :
  rebuild_result entries = Ok tt →
  forallb (λ entry, negb (nullish entry.2)) entries = true.
Proof.
  induction entries as [|entry rest IH]; simpl; [done|].
  rewrite rebuild_result_cons.
  destruct (nullish entry.2) eqn:E; simpl; [|done].
  unfold rebuild_result, first_nullish. simpl. rewrite E. simpl.
  by destruct entry.2.
Qed.

Lemma rebuild_well_shaped workflowJSON w :
  well_shaped workflowJSON = true →
  for_each (for_in workflowJSON) (node_step workflowJSON) w =
  (Ok tt, add_widgets (dynamic_widgets workflowJSON) w).
Proof.
  intros H. rewrite rebuild_runs.
  by destruct (well_shaped_done _ H) as [-> ->].
Qed.

(** ** The handler, path by path *)

Lemma value_at_alter_name name btn st r :
  value_at (alter (set_wname name) btn st) r = value_at st r.
Proof.
  unfold value_at. destruct (decide (btn = r)) as [->|Hne].
  - rewrite list_lookup_alter_eq. by destruct (lookup _ _).
  - by rewrite list_lookup_alter_ne.
Qed.

Lemma refresh_with_absent fetcher btn w :
  refresh_with fetcher None btn w = (Ok tt, log [missing_path_alert] w).
Proof. reflexivity. Qed.

Lemma refresh_with_empty fetcher wp btn w :
  ToBoolean (value_at (store w) wp) = false →
  refresh_with fetcher (Some wp) btn w = (Ok tt, log [missing_path_alert] w).
Proof.
  intros H. unfold refresh_with, mbind, M_bind, get_value. by rewrite H.
Qed.

Lemma clear_then {A : Type} (k : M A) w :
  (filter_widgets "dyn_" ≫= λ _, filter_inputs "dyn_" ≫= λ _, k) w = k (cleared w).
Proof.
  unfold mbind, M_bind, filter_widgets, filter_inputs, cleared. simpl.
  by rewrite <- app_assoc.
Qed.

Lemma finish_then btn w :
  (set_name btn idle_label ≫= λ _, setDirtyCanvas true ≫= λ _,
     console_debug "Dynamic inputs updated:") w = (Ok tt, finished btn w).
Proof.
  unfold mbind, M_bind, set_name, setDirtyCanvas, emit, console_debug, finished, log.
  simpl. by rewrite <- !app_assoc.
Qed.

Lemma fail_then btn error w :
  (console_error "Error loading workflow JSON:" error ≫= λ _,
     alert "Error loading workflow JSON. See console." ≫= λ _,
       set_name btn idle_label) w = (Ok tt, failed btn error w).
Proof.
  unfold mbind, M_bind, console_error, alert, set_name, emit, failed, log.
  simpl. by rewrite <- !app_assoc.
Qed.

Lemma refresh_with_runs fetcher wp btn w r w2 :
  ToBoolean (value_at (store w) wp) = true →
  fetcher (value_at (store w) wp) (after_loading btn w) = (r, w2) →
  refresh_with fetcher (Some wp) btn w =
  match r with
  | Throw error => (Ok tt, failed btn error w2)
  | Ok workflowJSON =>
      let w3 := add_widgets
                  (flat_map node_widgets (entries_done (fields workflowJSON)))
                  (cleared w2) in
      match rebuild_result (fields workflowJSON) with
      | Ok _ => (Ok tt, finished btn w3)
      | Throw e => (Throw e, w3)
      end
  end.
Proof.
  intros Hpath Hfetch.
  unfold refresh_with. unfold mbind at 1, M_bind at 1, get_value at 1.
  rewrite Hpath. cbn [negb].
  unfold mbind at 1, M_bind at 1, set_name at 1.
  fold (after_loading btn w).
  assert (attempt (get_value wp ≫= λ path, fetcher path) (after_loading btn w)
          = (Ok r, w2)) as Hatt.
  { unfold attempt, mbind, M_bind, get_value.
    change (store (after_loading btn w))
      with (alter (set_wname loading_label) btn (store w)).
    by rewrite value_at_alter_name, Hfetch. }
  rewrite (bind_Ok _ _ _ _ _ Hatt). destruct r as [workflowJSON|error].
  - rewrite clear_then.
    change (for_each (for_in workflowJSON) _)
      with (for_each (for_in workflowJSON) (node_step workflowJSON)).
    unfold mbind at 1, M_bind at 1. rewrite rebuild_runs.
    destruct (rebuild_result (fields workflowJSON)) as [[]|e]; [|done].
    apply finish_then.
  - apply fail_then.
Qed.

(** ** The data sources, summarised *)

Lemma http_returns_outcome net path v :
  http_returns net path v → http_outcome net path = Ok v.
Proof. intros [response H1 H2 H3]. unfold http_outcome. by rewrite H1, H2. Qed.

Lemma http_fails_outcome net path e :
  http_fails net path e → http_outcome net path = Throw e.
Proof.
  unfold http_outcome.
  intros [e' H1|response H1 H2|response e' H1 H2 H3]; rewrite H1; [done| |];
    by rewrite H2.
Qed.

Lemma host_returns_outcome g id v :
  host_returns g id v → host_outcome g id = Ok v.
Proof. intros [H1 H2]. unfold host_outcome. by rewrite H1, H2. Qed.

Lemma host_fails_outcome g id e :
  host_fails g id e → host_outcome g id = Throw e.
Proof.
  unfold host_outcome. intros [e' H1|v H1 H2]; rewrite H1; [done|]. by rewrite H2.
Qed.

Lemma http_fetch_runs net path w :
  ToBoolean path = true →
  Http.fetchWorkflowJSON net path w =
  (http_outcome net path, log [EFetch path (request path)] w).
Proof.
  intros Hp. unfold Http.fetchWorkflowJSON, http_outcome. rewrite Hp. cbn [negb].
  unfold fetch, mbind, M_bind, emit. fold (request path).
  destruct (net path (request path)) as [response|e]; [|done]. simpl.
  destruct (ok response); [|done]. simpl.
  unfold response_json. by destruct (json response).
Qed.

Lemma host_fetch_runs g path w :
  Host.fetchWorkflowJSON g path w =
  (host_outcome g (this_id w), log [ERunNode (this_id w)] w).
Proof.
  unfold Host.fetchWorkflowJSON, host_outcome, runNode, mbind, M_bind, emit.
  destruct (g (this_id w)) as [v|e]; [|done]. simpl.
  by destruct (ToBoolean v).
Qed.

(** Both handlers are the shared handler at their own data source. *)
Lemma http_handler_shared net wp btn :
  Http.updateDynamicInputs net wp btn = refresh_with (Http.fetchWorkflowJSON net) wp btn.
Proof. reflexivity. Qed.

Lemma host_handler_shared g wp btn :
  Host.updateDynamicInputs g wp btn = refresh_with (Host.fetchWorkflowJSON g) wp btn.
Proof. reflexivity. Qed.

Lemma http_refresh_runs net wp btn w :
  let path := value_at (store w) wp in
  ToBoolean path = true →
  Http.updateDynamicInputs net (Some wp) btn w =
  refresh_end btn (EFetch path (request path)) (http_outcome net path) w.
Proof.
  intros path Hp. rewrite http_handler_shared.
  rewrite (refresh_with_runs _ _ _ _ _ _ Hp (http_fetch_runs net path _ Hp)).
  reflexivity.
Qed.

Lemma host_refresh_runs g wp btn w :
  ToBoolean (value_at (store w) wp) = true →
  Host.updateDynamicInputs g (Some wp) btn w =
  refresh_end btn (ERunNode (this_id w)) (host_outcome g (this_id w)) w.
Proof.
  intros Hp. rewrite host_handler_shared.
  rewrite (refresh_with_runs _ _ _ _ _ _ Hp (host_fetch_runs g _ _)).
  reflexivity.
Qed.

(** Turn the run of a handler with a path into [refresh_end], at what
    [H] says of the data source. *)
Ltac run_http H :=
  rewrite http_refresh_runs by done; unfold path_of in H;
  first [ rewrite (http_returns_outcome _ _ _ H)
        | rewrite (http_fails_outcome _ _ _ H) ].

Ltac run_host H :=
  rewrite host_refresh_runs by done;
  first [ rewrite (host_returns_outcome _ _ _ H)
        | rewrite (host_fails_outcome _ _ _ H) ].

(** ** The worlds a refresh ends in *)

Lemma new_events_app w w' evs :
  trace w' = trace w ++ evs → new_events w w' = evs.
Proof. intros H. unfold new_events. by rewrite H, drop_app_length. Qed.

Lemma refresh_end_trace btn t r w :
  trace (refresh_end btn t r w).2 =
  trace w ++ [ESetName btn loading_label; t] ++ tail_events btn r w.
Proof.
  unfold refresh_end, resume, awaiting, tail_events. destruct r as [v|e]; simpl.
  - destruct (rebuild_result (fields v)); simpl;
      rewrite ?length_alter, <- ?app_assoc, ?app_nil_r; reflexivity.
  - by rewrite <- !app_assoc.
Qed.

Lemma refresh_end_events btn t r w :
  new_events w (refresh_end btn t r w).2 =
  [ESetName btn loading_label; t] ++ tail_events btn r w.
Proof. apply new_events_app, refresh_end_trace. Qed.

Lemma relabel_twice n1 n2 btn (st : list widget) :
  alter (set_wname n1) btn (alter (set_wname n2) btn st) = alter (set_wname n1) btn st.
Proof. by rewrite list_alter_alter_eq. Qed.

Lemma refresh_end_store_failed btn t e w :
  store (refresh_end btn t (Throw e) w).2 = alter (set_wname idle_label) btn (store w).
Proof. simpl. apply relabel_twice. Qed.

Lemma alter_app_l {A} (f : A → A) i (l1 l2 : list A) :
  i < length l1 → alter f i (l1 ++ l2) = alter f i l1 ++ l2.
Proof.
  revert i. induction l1 as [|x l1 IH]; intros [|i] Hi; simpl in *; try lia; [done|].
  f_equal. apply IH. lia.
Qed.

Lemma refresh_end_completed btn t v w :
  well_shaped v = true →
  refresh_end btn t (Ok v) w =
  (Ok tt, finished btn (add_widgets (dynamic_widgets v)
                          (cleared (log [t] (after_loading btn w))))).
Proof.
  intros H. unfold refresh_end, resume, awaiting.
  by destruct (well_shaped_done _ H) as [-> ->].
Qed.

Lemma refresh_end_Ok btn t v w :
  (refresh_end btn t (Ok v) w).1 = Ok tt → well_shaped v = true.
Proof.
  unfold refresh_end, resume, awaiting. intros H. apply rebuild_result_Ok.
  destruct (rebuild_result (fields v)) as [[]|e]; [done|discriminate].
Qed.

Lemma refresh_end_store btn t v w :
  well_shaped v = true →
  btn < length (store w) →
  store (refresh_end btn t (Ok v) w).2 =
  alter (set_wname idle_label) btn (store w) ++ dynamic_widgets v.
Proof.
  intros H Hbtn. rewrite (refresh_end_completed _ _ _ _ H). simpl.
  rewrite alter_app_l by (by rewrite length_alter).
  by rewrite relabel_twice.
Qed.

Lemma refresh_end_widgets btn t v w :
  well_shaped v = true →
  this_widgets (refresh_end btn t (Ok v) w).2 =
  kept_refs btn w ++ seq (length (store w)) (length (dynamic_widgets v)).
Proof.
  intros H. rewrite (refresh_end_completed _ _ _ _ H). simpl.
  by rewrite length_alter.
Qed.

Lemma refresh_end_inputs btn t v w :
  well_shaped v = true →
  this_inputs (refresh_end btn t (Ok v) w).2 = kept_inputs w.
Proof. intros H. by rewrite (refresh_end_completed _ _ _ _ H). Qed.

Lemma refresh_end_id btn t r w : this_id (refresh_end btn t r w).2 = this_id w.
Proof.
  unfold refresh_end, resume, awaiting. destruct r as [v|e]; [|done].
  by destruct (rebuild_result (fields v)).
Qed.

(** ** Lists of references read through the store *)

Lemma filter_all {A} (p : A → bool) (l : list A) :
  Forall (λ x, p x = true) l → List.filter p l = l.
Proof. induction 1 as [|x l Hx _ IH]; simpl; [done|]. by rewrite Hx, IH. Qed.

Lemma filter_none {A} (p : A → bool) (l : list A) :
  Forall (λ x, p x = false) l → List.filter p l = [].
Proof. induction 1 as [|x l Hx _ IH]; simpl; [done|]. by rewrite Hx. Qed.

Lemma filter_same {A} (p q : A → bool) (l : list A) :
  Forall (λ x, p x = q x) l → List.filter p l = List.filter q l.
Proof. induction 1 as [|x l Hx _ IH]; simpl; [done|]. by rewrite Hx, IH. Qed.

Lemma omap_lookup_seq {A} (l c : list A) :
  omap (λ r, (l ++ c) !! r) (seq (length l) (length c)) = c.
Proof.
  unfold omap. revert l. induction c as [|x c IH]; intros l; simpl; [done|].
  rewrite list_lookup_middle by done. f_equal.
  specialize (IH (l ++ [x])). rewrite length_app, <- app_assoc in IH. simpl in IH.
  by rewrite Nat.add_1_r in IH.
Qed.

Lemma omap_lookup_app_l {A} (l c : list A) (refs : list nat) :
  Forall (λ r, r < length l) refs →
  omap (λ r, (l ++ c) !! r) refs = omap (λ r, l !! r) refs.
Proof.
  unfold omap. induction 1 as [|r refs Hr _ IH]; simpl; [done|].
  by rewrite lookup_app_l, IH.
Qed.

Lemma name_at_app_l st c r : r < length st → name_at (st ++ c) r = name_at st r.
Proof. intros H. unfold name_at. by rewrite lookup_app_l. Qed.

Lemma name_at_alter_ne name btn st r :
  r ≠ btn → name_at (alter (set_wname name) btn st) r = name_at st r.
Proof. intros H. unfold name_at. by rewrite list_lookup_alter_ne. Qed.

Lemma name_at_alter_eq name btn st :
  btn < length st → name_at (alter (set_wname name) btn st) btn = name.
Proof.
  intros H. unfold name_at. rewrite list_lookup_alter_eq.
  destruct (lookup_lt_is_Some_2 st btn H) as [x Hx]. by rewrite Hx.
Qed.

Lemma name_at_Some st r x : st !! r = Some x → name_at st r = wname x.
Proof. intros H. unfold name_at. by rewrite H. Qed.

Lemma is_dynamic_labels :
  is_dynamic idle_label = false ∧ is_dynamic loading_label = false.
Proof. split; reflexivity. Qed.

Lemma field_widget_dynamic nodeId field :
  Forall (λ x, is_dynamic (wname x) = true) (field_widget nodeId field).
Proof.
  unfold field_widget. destruct (widget_kind field.2); constructor; [|constructor].
  unfold is_dynamic, startsWith. simpl.
  by destruct (String.app nodeId _).
Qed.

Lemma dynamic_widgets_dynamic v :
  Forall (λ x, is_dynamic (wname x) = true) (dynamic_widgets v).
Proof.
  unfold dynamic_widgets, node_widgets.
  apply List.Forall_forall. intros x Hx.
  apply in_flat_map in Hx as [entry [_ Hx]].
  apply in_flat_map in Hx as [field [_ Hx]].
  by apply (proj1 (List.Forall_forall _ _) (field_widget_dynamic entry.1 field)).
Qed.

Lemma kept_refs_lt btn w :
  Forall (λ r, r < length (store w)) (this_widgets w) →
  Forall (λ r, r < length (store w)) (kept_refs btn w).
Proof.
  intros H. apply List.Forall_forall. intros r Hr.
  apply filter_In in Hr as [Hr _].
  by apply (proj1 (List.Forall_forall _ _) H).
Qed.

Lemma kept_refs_names btn w :
  Forall (λ r, is_dynamic (name_at (alter (set_wname loading_label) btn (store w)) r)
               = false) (kept_refs btn w).
Proof.
  apply List.Forall_forall. intros r Hr.
  apply filter_In in Hr as [_ Hr]. by apply negb_true_iff.
Qed.

(** Once relabelled idle, what the kept references point to is no [dyn_]
    widget. *)
Lemma kept_refs_idle btn w r x :
  btn < length (store w) →
  In r (kept_refs btn w) →
  alter (set_wname idle_label) btn (store w) !! r = Some x →
  is_dynamic (wname x) = false.
Proof.
  intros Hbtn Hr Hx.
  pose proof (proj1 (List.Forall_forall _ _) (kept_refs_names btn w) r Hr) as Hn.
  simpl in Hn.
  destruct (decide (r = btn)) as [->|Hne].
  - rewrite <- (name_at_Some _ _ _ Hx). by rewrite name_at_alter_eq.
  - rewrite <- (name_at_Some _ _ _ Hx).
    rewrite name_at_alter_ne by done. by rewrite name_at_alter_ne in Hn.
Qed.

(** ** The node's widgets after a refresh that went through *)

Lemma kept_view_not_dynamic btn w :
  btn < length (store w) →
  Forall (λ x, is_dynamic (wname x) = false)
    (omap (λ r, alter (set_wname idle_label) btn (store w) !! r) (kept_refs btn w)).
Proof.
  intros Hbtn. apply List.Forall_forall. intros x Hx.
  apply list_elem_of_In, list_elem_of_omap in Hx as [r [Hr Hx]].
  apply list_elem_of_In in Hr. by apply (kept_refs_idle btn w r x).
Qed.

Lemma seq_points_into {A} (l c : list A) r :
  In r (seq (length l) (length c)) → ∃ x, In x c ∧ (l ++ c) !! r = Some x.
Proof.
  intros Hr. apply in_seq in Hr.
  destruct (lookup_lt_is_Some_2 c (r - length l)) as [x Hx]; [lia|].
  exists x. split.
  - apply list_elem_of_In. by eapply list_elem_of_lookup_2.
  - by rewrite lookup_app_r by lia.
Qed.

Section completed_refresh.
Variables (btn : nat) (t : event) (v : value) (w : world).
Hypothesis Hshape : well_shaped v = true.
Hypothesis Hwf : wf_world btn w.

Lemma refresh_end_view :
  widgets_of (refresh_end btn t (Ok v) w).2 =
  omap (λ r, alter (set_wname idle_label) btn (store w) !! r) (kept_refs btn w)
  ++ dynamic_widgets v.
Proof.
  destruct Hwf as [Hbtn Hrefs]. unfold widgets_of.
  rewrite refresh_end_store, refresh_end_widgets by done.
  rewrite omap_app. f_equal.
  - apply omap_lookup_app_l. rewrite length_alter. by apply kept_refs_lt.
  - rewrite <- (length_alter (set_wname idle_label) (store w) btn).
    apply omap_lookup_seq.
Qed.

Lemma refresh_end_dynamic_view :
  List.filter (λ x, is_dynamic (wname x)) (widgets_of (refresh_end btn t (Ok v) w).2)
  = dynamic_widgets v.
Proof.
  rewrite refresh_end_view, List.filter_app.
  rewrite (filter_none _ _ (kept_view_not_dynamic btn w (proj1 Hwf))).
  by rewrite (filter_all _ _ (dynamic_widgets_dynamic v)).
Qed.

Lemma refresh_end_wf : wf_world btn (refresh_end btn t (Ok v) w).2.
Proof.
  destruct Hwf as [Hbtn Hrefs]. unfold wf_world.
  rewrite refresh_end_store, refresh_end_widgets by done.
  rewrite length_app, length_alter. split; [lia|].
  apply Forall_app. split.
  - eapply Forall_impl; [by apply kept_refs_lt|]. simpl. intros; lia.
  - apply List.Forall_forall. intros r Hr. apply in_seq in Hr. lia.
Qed.

(** A second refresh keeps the references the first one kept, and drops
    the ones the first one added. *)
Lemma kept_refs_again :
  kept_refs btn (refresh_end btn t (Ok v) w).2 = kept_refs btn w.
Proof.
  destruct Hwf as [Hbtn Hrefs]. unfold kept_refs at 1.
  rewrite refresh_end_store, refresh_end_widgets by done.
  rewrite alter_app_l by (by rewrite length_alter). rewrite relabel_twice.
  rewrite List.filter_app.
  rewrite filter_all, filter_none; [by rewrite app_nil_r| |].
  - apply List.Forall_forall. intros r Hr.
    rewrite <- (length_alter (set_wname loading_label) (store w) btn) in Hr.
    destruct (seq_points_into _ (dynamic_widgets v) r Hr) as [x [Hx Hlook]].
    rewrite (name_at_Some _ _ _ Hlook).
    by rewrite (proj1 (List.Forall_forall _ _) (dynamic_widgets_dynamic v) x Hx).
  - pose proof (kept_refs_lt btn w Hrefs) as Hlt.
    pose proof (kept_refs_names btn w) as Hn.
    apply List.Forall_forall. intros r Hr.
    rewrite name_at_app_l.
    + by rewrite (proj1 (List.Forall_forall _ _) Hn r Hr).
    + rewrite length_alter. by apply (proj1 (List.Forall_forall _ _) Hlt).
Qed.

Lemma kept_inputs_again :
  kept_inputs (refresh_end btn t (Ok v) w).2 = kept_inputs w.
Proof.
  unfold kept_inputs at 1. rewrite refresh_end_inputs by done.
  apply filter_all, List.Forall_forall. intros i Hi.
  by apply filter_In in Hi as [_ Hi].
Qed.

End completed_refresh.

Lemma refresh_end_again btn t t' v w :
  well_shaped v = true →
  wf_world btn w →
  let w' := (refresh_end btn t (Ok v) w).2 in
  widgets_of (refresh_end btn t' (Ok v) w').2 = widgets_of w' ∧
  this_inputs (refresh_end btn t' (Ok v) w').2 = this_inputs w'.
Proof.
  intros Hv Hwf w'. pose proof (refresh_end_wf btn t v w Hv Hwf) as Hwf'.
  split.
  - rewrite (refresh_end_view btn t' v w') by done.
    unfold w'. rewrite kept_refs_again by done.
    rewrite (refresh_end_view btn t v w) by done.
    rewrite refresh_end_store by (done || apply Hwf).
    rewrite alter_app_l by (rewrite length_alter; apply Hwf).
    rewrite relabel_twice. f_equal.
    rewrite omap_lookup_app_l; [done|].
    rewrite length_alter. apply kept_refs_lt, Hwf.
  - rewrite (refresh_end_inputs btn t' v w') by done.
    unfold w'. rewrite kept_inputs_again by done.
    by rewrite refresh_end_inputs.
Qed.

(** ** Paths of the handler and what they leave behind *)

Lemma refresh_with_missing fetcher wp btn w :
  path_missing wp w = true →
  refresh_with fetcher wp btn w = (Ok tt, log [missing_path_alert] w).
Proof.
  intros Hmiss. destruct wp as [pathWidget|]; simpl in Hmiss.
  - apply negb_true_iff in Hmiss. by apply refresh_with_empty.
  - apply refresh_with_absent.
Qed.

Lemma only_alerts_log w : only_alerts w (Ok tt, log [missing_path_alert] w).
Proof. repeat split. by apply new_events_app. Qed.

Lemma refresh_end_failure btn t e w :
  fetch_failure btn t e w (refresh_end btn t (Throw e) w).
Proof.
  repeat split.
  - apply refresh_end_events.
  - apply refresh_end_store_failed.
Qed.

(** ** Events of a run *)

Lemma count_dirty_app evs1 evs2 :
  count_dirty (evs1 ++ evs2) = count_dirty evs1 + count_dirty evs2.
Proof. unfold count_dirty. by rewrite List.filter_app, length_app. Qed.

Lemma count_dirty_adds ws : count_dirty (map add_event ws) = 0.
Proof. induction ws as [|x ws IH]; [done|]. apply IH. Qed.

Lemma addWidget_calls_app evs1 evs2 :
  addWidget_calls (evs1 ++ evs2) = addWidget_calls evs1 ++ addWidget_calls evs2.
Proof. apply flat_map_app. Qed.

Lemma addWidget_calls_adds ws :
  Forall (λ x, wcallback x = None) ws →
  addWidget_calls (map add_event ws) = ws.
Proof.
  induction 1 as [|x ws Hx _ IH]; [done|].
  destruct x as [type name v c]. simpl in *. subst c. by rewrite IH.
Qed.

Lemma dynamic_widgets_no_callback v :
  Forall (λ x, wcallback x = None) (dynamic_widgets v).
Proof.
  unfold dynamic_widgets, node_widgets.
  apply List.Forall_forall. intros x Hx.
  apply in_flat_map in Hx as [entry [_ Hx]].
  apply in_flat_map in Hx as [field [_ Hx]].
  unfold field_widget in Hx.
  destruct (widget_kind field.2); simpl in Hx; [|done].
  by destruct Hx as [<-|[]].
Qed.

(** The events of a refresh that went through, after the data source
    has answered. *)
Lemma tail_events_completed btn v w :
  well_shaped v = true →
  tail_events btn (Ok v) w =
  [ESetWidgets (kept_refs btn w); ESetInputs (kept_inputs w)] ++
  map add_event (dynamic_widgets v) ++
  [ESetName btn idle_label; ESetDirtyCanvas true;
   EConsoleDebug "Dynamic inputs updated:"
     (kept_refs btn w ++ seq (length (store w)) (length (dynamic_widgets v)))].
Proof.
  intros H. unfold tail_events.
  by destruct (well_shaped_done _ H) as [-> ->].
Qed.

(** The label is written with the two texts only, on the button only. *)
Lemma tail_events_labels btn r w ref name :
  In (ESetName ref name) (tail_events btn r w) → ref = btn ∧ name = idle_label.
Proof.
  unfold tail_events. destruct r as [v|e].
  - intros [H|[H|H]]; [done..|].
    simpl in H. apply in_app_or in H as [H|H].
    + apply in_map_iff in H as [x [H _]]. discriminate.
    + destruct (rebuild_result (fields v)); simpl in H; [|done].
      destruct H as [H|[H|[H|[]]]]; [|done..]. by injection H as -> ->.
  - intros [H|[H|[H|[]]]]; [done..|]. by injection H as -> ->.
Qed.

Lemma refresh_end_labels btn t r w ref name :
  is_transport t = true →
  In (ESetName ref name) (new_events w (refresh_end btn t r w).2) →
  ref = btn ∧ (name = idle_label ∨ name = loading_label).
Proof.
  intros Ht. rewrite refresh_end_events.
  intros [H|[H|H]].
  - injection H as -> ->. auto.
  - subst t. discriminate.
  - apply tail_events_labels in H as [-> ->]. auto.
Qed.

Lemma refresh_end_idle btn t r w :
  btn < length (store w) →
  (refresh_end btn t r w).1 = Ok tt →
  name_at (store (refresh_end btn t r w).2) btn = idle_label.
Proof.
  intros Hbtn. destruct r as [v|e].
  - intros Hok. pose proof (refresh_end_Ok _ _ _ _ Hok) as Hv.
    rewrite refresh_end_store by done.
    rewrite name_at_app_l by (by rewrite length_alter).
    by apply name_at_alter_eq.
  - intros _. rewrite refresh_end_store_failed. by apply name_at_alter_eq.
Qed.

Lemma refresh_end_same btn t1 t2 r w :
  (refresh_end btn t1 r w).1 = (refresh_end btn t2 r w).1 ∧
  store (refresh_end btn t1 r w).2 = store (refresh_end btn t2 r w).2 ∧
  this_widgets (refresh_end btn t1 r w).2 = this_widgets (refresh_end btn t2 r w).2 ∧
  this_inputs (refresh_end btn t1 r w).2 = this_inputs (refresh_end btn t2 r w).2.
Proof.
  unfold refresh_end, resume, awaiting. destruct r as [v|e]; [|done].
  by destruct (rebuild_result (fields v)).
Qed.

Lemma refresh_end_same_events btn t1 t2 r w :
  is_transport t1 = true → is_transport t2 = true →
  List.filter (λ e, negb (is_transport e)) (new_events w (refresh_end btn t1 r w).2) =
  List.filter (λ e, negb (is_transport e)) (new_events w (refresh_end btn t2 r w).2).
Proof.
  intros H1 H2. rewrite !refresh_end_events. simpl. by rewrite H1, H2.
Qed.

Lemma is_dynamic_after_loading btn st r :
  is_dynamic (name_at st btn) = false →
  is_dynamic (name_at (alter (set_wname loading_label) btn st) r) =
  is_dynamic (name_at st r).
Proof.
  intros Hbtn. destruct (decide (r = btn)) as [->|Hne].
  - unfold name_at in *. rewrite list_lookup_alter_eq.
    destruct (st !! btn); simpl in *; by rewrite ?Hbtn.
  - by rewrite name_at_alter_ne.
Qed.

Lemma kept_refs_entry btn w :
  is_dynamic (name_at (store w) btn) = false →
  kept_refs btn w =
  List.filter (λ r, negb (is_dynamic (name_at (store w) r))) (this_widgets w).
Proof.
  intros Hbtn. apply filter_same, List.Forall_forall. intros r _.
  by rewrite is_dynamic_after_loading.
Qed.

Lemma refresh_end_frame btn t v w r x :
  well_shaped v = true →
  store w !! r = Some x →
  store (refresh_end btn t (Ok v) w).2 !! r =
  Some (if decide (r = btn) then set_wname idle_label x else x).
Proof.
  intros Hv Hx. rewrite (refresh_end_completed _ _ _ _ Hv). simpl.
  pose proof (lookup_lt_Some _ _ _ Hx) as Hr.
  destruct (decide (r = btn)) as [->|Hne].
  - rewrite list_lookup_alter_eq, lookup_app_l by (by rewrite length_alter).
    by rewrite list_lookup_alter_eq, Hx.
  - rewrite list_lookup_alter_ne by done.
    rewrite lookup_app_l by (by rewrite length_alter).
    by rewrite list_lookup_alter_ne.
Qed.

Lemma path_of_refresh_end btn t v w pathWidget :
  well_shaped v = true →
  ToBoolean (path_of pathWidget w) = true →
  path_of pathWidget (refresh_end btn t (Ok v) w).2 = path_of pathWidget w.
Proof.
  intros Hv Hpath. unfold path_of, value_at in *.
  destruct (store w !! pathWidget) as [x|] eqn:Hx; [|done].
  rewrite (refresh_end_frame btn t v w pathWidget x Hv Hx).
  by destruct (decide (pathWidget = btn)).
Qed.

Lemma transport_not_dirty t : is_transport t = true → is_dirty_mark t = false.
Proof. by destruct t. Qed.

Lemma transport_not_add t : is_transport t = true → addWidget_call t = [].
Proof. by destruct t. Qed.

Lemma refresh_end_dirty btn t v w :
  is_transport t = true →
  well_shaped v = true →
  dirty_once_after_update w v (refresh_end btn t (Ok v) w).
Proof.
  intros Ht Hv. unfold dirty_once_after_update.
  rewrite refresh_end_events, refresh_end_widgets, tail_events_completed by done.
  assert (count_dirty
            ([ESetName btn loading_label; t] ++
             [ESetWidgets (kept_refs btn w); ESetInputs (kept_inputs w)] ++
             map add_event (dynamic_widgets v) ++ [ESetName btn idle_label]) = 0)
    as Hnone.
  { rewrite !count_dirty_app, count_dirty_adds. unfold count_dirty. simpl.
    by rewrite (transport_not_dirty t Ht). }
  split.
  - rewrite !count_dirty_app, count_dirty_adds in *.
    unfold count_dirty in *. simpl in *.
    rewrite (transport_not_dirty t Ht) in *. simpl in *. lia.
  - exists ([ESetName btn loading_label; t] ++
            [ESetWidgets (kept_refs btn w); ESetInputs (kept_inputs w)] ++
            map add_event (dynamic_widgets v) ++ [ESetName btn idle_label]).
    split; [|split; [exact Hnone|]].
    + by rewrite <- !app_assoc.
    + rewrite !addWidget_calls_app.
      rewrite (addWidget_calls_adds _ (dynamic_widgets_no_callback v)).
      simpl. rewrite (transport_not_add t Ht). simpl. by rewrite app_nil_r.
Qed.

Lemma refresh_end_failed_clean btn t e w :
  is_transport t = true →
  never_dirty w (refresh_end btn t (Throw e) w).
Proof.
  intros Ht. unfold never_dirty. rewrite refresh_end_events.
  unfold count_dirty. simpl. by rewrite (transport_not_dirty t Ht).
Qed.

Lemma only_alerts_clean w out : only_alerts w out → never_dirty w out.
Proof. intros (_ & H & _). unfold never_dirty. by rewrite H. Qed.

Lemma refresh_end_preserves btn t v w :
  well_shaped v = true →
  is_dynamic (name_at (store w) btn) = false →
  preserves_static btn w (refresh_end btn t (Ok v) w).
Proof.
  intros Hv Hbtn. split; [|split].
  - by apply refresh_end_inputs.
  - exists (seq (length (store w)) (length (dynamic_widgets v))). split.
    + rewrite refresh_end_widgets by done. by rewrite kept_refs_entry.
    + apply List.Forall_forall. intros r Hr. apply in_seq in Hr. lia.
  - intros r x Hx. by apply refresh_end_frame.
Qed.

Lemma refresh_end_replaces btn t v w :
  is_transport t = true →
  well_shaped v = true →
  wf_world btn w →
  replaces_dynamic w v (refresh_end btn t (Ok v) w).
Proof.
  intros Ht Hv Hwf. split; [|split].
  - by apply refresh_end_inputs.
  - by apply refresh_end_dynamic_view.
  - exists (kept_refs btn w), [ESetName btn loading_label; t],
      [ESetName btn idle_label; ESetDirtyCanvas true;
       EConsoleDebug "Dynamic inputs updated:"
         (kept_refs btn w ++ seq (length (store w)) (length (dynamic_widgets v)))].
    split; [by apply refresh_end_widgets|]. split; [|split].
    + rewrite refresh_end_events, tail_events_completed by done.
      by rewrite refresh_end_inputs.
    + simpl. by rewrite (transport_not_add t Ht).
    + reflexivity.
Qed.

Lemma refresh_end_same_lists btn t t' v w :
  well_shaped v = true →
  wf_world btn w →
  same_lists (refresh_end btn t (Ok v) w)
    (refresh_end btn t' (Ok v) (refresh_end btn t (Ok v) w).2).
Proof.
  intros Hv Hwf. split.
  - by rewrite (refresh_end_completed _ _ _ _ Hv).
  - by apply refresh_end_again.
Qed.

Lemma example_created_wf : wf_world 1 example_created.
Proof. split; [simpl; lia|]. repeat constructor. Qed.

Lemma refresh_end_creates btn t v w :
  is_transport t = true →
  well_shaped v = true →
  wf_world btn w →
  creates_dynamic_widgets w v (refresh_end btn t (Ok v) w).
Proof.
  intros Ht Hv Hwf. split; [|split].
  - by rewrite (refresh_end_completed _ _ _ _ Hv).
  - rewrite refresh_end_events, tail_events_completed by done.
    rewrite !addWidget_calls_app.
    rewrite (addWidget_calls_adds _ (dynamic_widgets_no_callback v)).
    simpl. rewrite (transport_not_add t Ht). simpl. by rewrite app_nil_r.
  - exists (omap (λ r, alter (set_wname idle_label) btn (store w) !! r)
              (kept_refs btn w)).
    split; [by apply refresh_end_view|].
    apply kept_view_not_dynamic, Hwf.
Qed.

Lemma refresh_end_toggles pathWidget btn t r w :
  is_transport t = true →
  btn < length (store w) →
  ToBoolean (path_of pathWidget w) = true →
  label_toggles (Some pathWidget) btn w (refresh_end btn t r w).
Proof.
  intros Ht Hbtn Hpath. split; [|split].
  - intros ref name. by apply refresh_end_labels.
  - simpl. by rewrite Hpath.
  - intros _. split.
    + rewrite refresh_end_events. by eexists.
    + by apply refresh_end_idle.
Qed.

Lemma missing_path_toggles wp btn w :
  path_missing wp w = true →
  label_toggles wp btn w (Ok tt, log [missing_path_alert] w).
Proof.
  intros Hmiss. split; [|split].
  - intros r name. rewrite (new_events_app w _ [missing_path_alert]) by done.
    by intros [H|[]].
  - done.
  - by rewrite Hmiss.
Qed.

(** ** A node entry without inputs *)

Lemma lookup_prop_skip k nodeId node before after :
  k ≠ nodeId →
  lookup_prop k (before ++ (nodeId, node) :: after) = lookup_prop k (before ++ after).
Proof.
  intros Hne. induction before as [|[k' v'] before IH]; simpl.
  - by rewrite (proj2 (String.eqb_neq k nodeId) Hne).
  - by rewrite IH.
Qed.

Lemma lookup_prop_here nodeId node before after :
  ¬ In nodeId (map fst before) →
  lookup_prop nodeId (before ++ (nodeId, node) :: after) = node.
Proof.
  induction before as [|[k' v'] before IH]; simpl; intros Hnot.
  - by rewrite String.eqb_refl.
  - rewrite (proj2 (String.eqb_neq nodeId k')) by (intros ->; apply Hnot; by left).
    apply IH. intros H. apply Hnot. by right.
Qed.

Lemma fields_skip nodeId node before after :
  ¬ In nodeId (map fst (before ++ after)) →
  ∃ entries1 entries2,
    fields (VObj (before ++ (nodeId, node) :: after))
      = entries1 ++ (nodeId, node) :: entries2 ∧
    fields (VObj (before ++ after)) = entries1 ++ entries2.
Proof.
  intros Hnot. rewrite map_app in Hnot.
  exists (map (λ k, (k, lookup_prop k (before ++ after))) (map fst before)),
         (map (λ k, (k, lookup_prop k (before ++ after))) (map fst after)).
  unfold fields, for_in. simpl.
  change (fmap fst) with (map (@fst string value)).
  rewrite !map_app. simpl. split; [|done].
  rewrite lookup_prop_here by (intros H; apply Hnot, in_or_app; by left).
  assert (∀ keys, (∀ k, In k keys → k ≠ nodeId) →
            map (λ k, (k, lookup_prop k (before ++ (nodeId, node) :: after))) keys =
            map (λ k, (k, lookup_prop k (before ++ after))) keys) as Hsame.
  { intros keys Hkeys. apply map_ext_in. intros k Hk.
    f_equal. apply lookup_prop_skip, Hkeys, Hk. }
  rewrite (Hsame (map fst before)), (Hsame (map fst after)); [reflexivity| |].
  - intros k Hk Heq. apply Hnot, in_or_app. right. by rewrite <- Heq.
  - intros k Hk Heq. apply Hnot, in_or_app. left. by rewrite <- Heq.
Qed.

Lemma node_widgets_no_inputs nodeId node :
  ToBoolean (lookup_prop "inputs" (own_props node)) = false →
  node_widgets (nodeId, node) = [].
Proof. intros H. unfold node_widgets, inputs_of. simpl. by rewrite H. Qed.

Lemma entries_skip entries1 entry entries2 :
  nullish entry.2 = false →
  node_widgets entry = [] →
  flat_map node_widgets (entries_done (entries1 ++ entry :: entries2)) =
    flat_map node_widgets (entries_done (entries1 ++ entries2)) ∧
  rebuild_result (entries1 ++ entry :: entries2) = rebuild_result (entries1 ++ entries2).
Proof.
  intros Hnode Hnone. induction entries1 as [|x entries1 [IH1 IH2]]; simpl.
  - rewrite rebuild_result_cons, Hnode. simpl. by rewrite Hnone.
  - rewrite (rebuild_result_cons x (entries1 ++ entry :: entries2)).
    rewrite (rebuild_result_cons x (entries1 ++ entries2)).
    destruct (nullish x.2); [done|].
    simpl. by rewrite IH1, IH2.
Qed.

Lemma refresh_end_skip btn t w nodeId node before after :
  nullish node = false →
  ToBoolean (lookup_prop "inputs" (own_props node)) = false →
  ¬ In nodeId (map fst (before ++ after)) →
  refresh_end btn t (Ok (VObj (before ++ (nodeId, node) :: after))) w =
  refresh_end btn t (Ok (VObj (before ++ after))) w.
Proof.
  intros Hnode Hinputs Hnot.
  destruct (fields_skip nodeId node before after Hnot)
    as (entries1 & entries2 & H1 & H2).
  destruct (entries_skip entries1 (nodeId, node) entries2 Hnode
              (node_widgets_no_inputs nodeId node Hinputs)) as [Hw Hr].
  unfold refresh_end, resume, awaiting. by rewrite H1, H2, Hw, Hr.
Qed.

(** ** What the specification's rebuild holds *)

(** The kind follows [typeof] and [Number.isInteger]. *)
Lemma widget_kind_typeof v :
  widget_kind v =
  if typeof v =? "number" then Some (if Number_isInteger v then "INT" else "FLOAT")
  else if typeof v =? "boolean" then Some "BOOLEAN"
  else if typeof v =? "string" then Some "STRING"
  else None.
Proof. by destruct v. Qed.

(** The fields of an object that holds each key once are its properties. *)
Lemma fields_object props :
  List.NoDup (map fst props) → fields (VObj props) = props.
Proof.
  unfold fields, for_in. simpl. change (fmap fst) with (map (@fst string value)).
  induction props as [|[k v] props IH]; simpl; intros Hnodup; [done|].
  inversion Hnodup as [|? ? Hk Hrest]; subst.
  rewrite String.eqb_refl. f_equal.
  rewrite <- (IH Hrest) at 2. apply map_ext_in. intros k' Hk'.
  destruct (String.eqb_spec k' k) as [->|Hne]; [done|reflexivity].
Qed.

(** A widget of the rebuild comes from a scalar field of a node. *)
Lemma dynamic_widgets_elem v x :
  In x (dynamic_widgets v) ↔
  ∃ nodeId node key val kind,
    In (nodeId, node) (fields v) ∧
    In (key, val) (fields (inputs_of node)) ∧
    widget_kind val = Some kind ∧
    x = Widget kind ("dyn_" +:+ nodeId +:+ "_" +:+ key) val None.
Proof.
  unfold dynamic_widgets, node_widgets. rewrite in_flat_map. split.
  - intros [[nodeId node] [Hnode Hx]]. apply in_flat_map in Hx as [[key val] [Hf Hx]].
    unfold field_widget in Hx. simpl in Hx.
    destruct (widget_kind val) as [kind|] eqn:Hkind; [|done].
    destruct Hx as [<-|[]]. by exists nodeId, node, key, val, kind.
  - intros (nodeId & node & key & val & kind & Hnode & Hf & Hkind & ->).
    exists (nodeId, node). split; [done|].
    apply in_flat_map. exists (key, val). split; [done|].
    unfold field_widget. simpl. rewrite Hkind. by left.
Qed.

(** ** Worlds the handler can be run in *)

Lemma refresh_end_ready btn t r w :
  handler_ready btn w → handler_ready btn (refresh_end btn t r w).2.
Proof.
  intros [[Hbtn Hrefs] _]. unfold refresh_end, resume, awaiting. destruct r as [v|e].
  - assert (handler_ready btn
      (add_widgets (flat_map node_widgets (entries_done (fields v)))
         (cleared (log [t] (after_loading btn w))))) as [[Hb Hr] Hn].
    { split; [split|]; simpl.
      - rewrite length_app, length_alter. lia.
      - rewrite length_app, length_alter. apply Forall_app. split.
        + eapply Forall_impl; [by apply (kept_refs_lt btn w)|]. simpl. intros; lia.
        + apply List.Forall_forall. intros x Hx. apply in_seq in Hx. lia.
      - right. rewrite name_at_app_l by (by rewrite length_alter).
        by apply name_at_alter_eq. }
    destruct (rebuild_result (fields v)) as [[]|e]; [|done].
    split; [split|]; simpl in *.
    + by rewrite length_alter.
    + by rewrite length_alter.
    + left. by apply name_at_alter_eq.
  - split; [split|]; simpl.
    + by rewrite !length_alter.
    + by rewrite !length_alter.
    + left. apply name_at_alter_eq. by rewrite length_alter.
Qed.

(** [onNodeCreated] readies the node, and every run of the handler, on
    whatever path it ends, leaves it ready. *)
Lemma onNodeCreated_ready w :
  Forall (λ r, r < length (store w)) (this_widgets w) →
  ∃ wp btn w',
    Http.onNodeCreated w = (Ok (wp, btn), w') ∧
    Host.onNodeCreated w = (Ok (wp, btn), w') ∧
    handler_ready btn w'.
Proof.
  intros Hrefs. eexists _, _, _. split; [reflexivity|]. split; [reflexivity|].
  split; [split|]; simpl.
  - rewrite length_alter, length_app. simpl. lia.
  - rewrite length_alter, length_app. simpl. apply Forall_app. split.
    + eapply Forall_impl; [exact Hrefs|]. simpl. intros; lia.
    + repeat constructor. lia.
  - left. unfold name_at.
    rewrite list_lookup_alter_eq, list_lookup_middle by done. reflexivity.
Qed.

Lemma handler_keeps_ready (net : network) (g : graph) wp btn w :
  handler_ready btn w →
  handler_ready btn (Http.updateDynamicInputs net wp btn w).2 ∧
  handler_ready btn (Host.updateDynamicInputs g wp btn w).2.
Proof.
  intros Hready. destruct (path_missing wp w) eqn:Hmiss.
  - rewrite http_handler_shared, host_handler_shared.
    by rewrite !refresh_with_missing.
  - destruct wp as [pathWidget|]; [|done]. simpl in Hmiss.
    apply negb_false_iff in Hmiss.
    rewrite http_refresh_runs, host_refresh_runs by done.
    split; by apply refresh_end_ready.
Qed.

Lemma handler_ready_not_dynamic btn w :
  handler_ready btn w → is_dynamic (name_at (store w) btn) = false.
Proof. by intros [_ [->| ->]]. Qed.

(** ** The handler across its await, and across the variants *)

(** The two handlers agree, but for the call to the data source, whenever
    their [fetchWorkflowJSON] end alike, with a value or with an error. *)
Lemma variants_agree_on_same_fetch (net : network) (g : graph) pathWidget btn w :
  ToBoolean (path_of pathWidget w) = true →
  http_outcome net (path_of pathWidget w) = host_outcome g (this_id w) →
  same_outcome w (Http.updateDynamicInputs net (Some pathWidget) btn w)
                 (Host.updateDynamicInputs g (Some pathWidget) btn w).
Proof.
  intros Hpath Hsame.
  rewrite http_refresh_runs, host_refresh_runs by done.
  unfold path_of in Hsame. rewrite Hsame.
  destruct (refresh_end_same btn
    (EFetch (value_at (store w) pathWidget) (request (value_at (store w) pathWidget)))
    (ERunNode (this_id w)) (host_outcome g (this_id w)) w) as (H1 & H2 & H3 & H4).
  repeat split; try done.
  by apply refresh_end_same_events.
Qed.

(** A run with a path is the handler's resumption from the world in
    which it awaited; whatever the answer will be, a second run started
    in that world with the path emptied ends on the missing path and
    returns while the label shows the loading text. *)
Lemma label_loading_while_a_run_awaits (net : network) :
  Http.updateDynamicInputs net (Some 0) 1 example_created =
    resume 1 (http_outcome net (VStr "wf.json")) example_waiting ∧
  path_missing (Some 0) example_waiting_cleared = true ∧
  Http.updateDynamicInputs net (Some 0) 1 example_waiting_cleared =
    (Ok tt, log [missing_path_alert] example_waiting_cleared) ∧
  name_at (store (log [missing_path_alert] example_waiting_cleared)) 1 = loading_label.
Proof.
  split; [|by repeat split].
  by rewrite (http_refresh_runs net 0 1 example_created).
Qed.

Lemma answers_returns v path : http_returns (answers v) path v.
Proof.
  by apply (http_ok _ _ _ {| ok := true; statusText := "OK"; json := Ok v |}).
Qed.

(** * The claims *)

(** C1, amended: when no node entry of a fetched response is [null] or
    [undefined], the handler asks the host for exactly one widget per
    scalar field under the nodes' [inputs]: named [dyn_], the node id,
    an underscore and the key, of kind INT for an integer, FLOAT for
    another number, BOOLEAN for a boolean and STRING for a string; a
    field of any other value gets none. *)
Theorem scalar_fields_become_widgets (net : network) (g : graph)
    pathWidget btn w v :
  ToBoolean (path_of pathWidget w) = true →
  wf_world btn w →
  well_shaped v = true →
  (http_returns net (path_of pathWidget w) v →
     creates_dynamic_widgets w v
       (Http.updateDynamicInputs net (Some pathWidget) btn w)) ∧
  (host_returns g (this_id w) v →
     creates_dynamic_widgets w v
       (Host.updateDynamicInputs g (Some pathWidget) btn w)).
Proof.
  intros Hpath Hwf Hv. split; intros Hret.
  - run_http Hret. by apply refresh_end_creates.
  - run_host Hret. by apply refresh_end_creates.
Qed.

Lemma scalar_fields_become_widgets_witness :
  ToBoolean (path_of 0 example_created) = true ∧
  wf_world 1 example_created ∧
  well_shaped example_workflow = true ∧
  creates_dynamic_widgets example_created example_workflow
    (Http.updateDynamicInputs (answers example_workflow) (Some 0) 1 example_created) ∧
  creates_dynamic_widgets example_created example_workflow
    (Host.updateDynamicInputs (runs_to example_workflow) (Some 0) 1 example_created).
Proof.
  split; [reflexivity|]. split; [exact example_created_wf|]. split; [reflexivity|].
  destruct (scalar_fields_become_widgets (answers example_workflow)
              (runs_to example_workflow) 0 1 example_created example_workflow
              eq_refl example_created_wf eq_refl)
    as [Hhttp Hhost].
  split.
  - apply Hhttp, answers_returns.
  - apply Hhost, host_ok; reflexivity.
Defined.

(** C1 as stated fails: the response

      { "1": null, "2": { "inputs": { "a": 1 } } }

    is fetched and parsed, and has the integer field [a] under the
    inputs of node 2, but the handler stops at node 1 with a [TypeError]
    and asks the host for no widget. *)
Lemma scalar_field_after_null_entry_gets_no_widget :
  http_returns (answers broken_workflow) (path_of 0 example_created) broken_workflow ∧
  fields (inputs_of (lookup_prop "2" (own_props broken_workflow))) = [("a", num 1)] ∧
  dynamic_widgets broken_workflow = [Widget "INT" "dyn_2_a" (num 1) None] ∧
  (Http.updateDynamicInputs (answers broken_workflow) (Some 0) 1 example_created).1
    = Throw (TypeError "Cannot read properties of null") ∧
  addWidget_calls
    (new_events example_created
       (Http.updateDynamicInputs (answers broken_workflow) (Some 0) 1 example_created).2)
    = [] ∧
  widgets_of
    (Http.updateDynamicInputs (answers broken_workflow) (Some 0) 1 example_created).2
    = [Widget "text" "workflow_path" (VStr "wf.json") None;
       Widget "button" loading_label VUndefined (Some UpdateDynamicInputs)].
Proof. split; [apply answers_returns|]. repeat split; reflexivity. Qed.

(** C2: when the path widget is absent or its value is empty, the
    handler of either variant makes no request and no host call: it
    shows the missing-path alert and returns, the node's widgets and
    inputs unchanged. *)
Theorem missing_path_only_alerts (net : network) (g : graph) wp btn w :
  path_missing wp w = true →
  only_alerts w (Http.updateDynamicInputs net wp btn w) ∧
  only_alerts w (Host.updateDynamicInputs g wp btn w).
Proof.
  intros Hmiss. rewrite http_handler_shared, host_handler_shared.
  rewrite !refresh_with_missing by done.
  split; apply only_alerts_log.
Qed.

Lemma missing_path_only_alerts_witness :
  path_missing (Some 0) example_cleared = true ∧
  only_alerts example_cleared
    (Http.updateDynamicInputs (answers example_workflow) (Some 0) 1 example_cleared) ∧
  only_alerts example_cleared
    (Host.updateDynamicInputs (runs_to example_workflow) (Some 0) 1 example_cleared).
Proof.
  split; [reflexivity|].
  apply (missing_path_only_alerts (answers example_workflow) (runs_to example_workflow)).
  reflexivity.
Defined.

(** C3: with a path, when the fetch throws, the response is not ok, the
    JSON does not parse, or the host's run returns nothing, the handler
    catches the error, logs it, alerts, sets the label back to the idle
    text and returns; the data source was asked once, and the node's
    widgets and inputs are as they were. *)
Theorem fetch_failure_keeps_widgets (net : network) (g : graph) pathWidget btn w :
  ToBoolean (path_of pathWidget w) = true →
  (∀ e, http_fails net (path_of pathWidget w) e →
     fetch_failure btn (EFetch (path_of pathWidget w) (request (path_of pathWidget w)))
       e w (Http.updateDynamicInputs net (Some pathWidget) btn w)) ∧
  (∀ e, host_fails g (this_id w) e →
     fetch_failure btn (ERunNode (this_id w))
       e w (Host.updateDynamicInputs g (Some pathWidget) btn w)).
Proof.
  intros Hpath. split; intros e He.
  - run_http He. apply refresh_end_failure.
  - run_host He. apply refresh_end_failure.
Qed.

Lemma fetch_failure_keeps_widgets_witness :
  ToBoolean (path_of 0 example_created) = true ∧
  fetch_failure 1 (EFetch (VStr "wf.json") (request (VStr "wf.json")))
    (Error "Failed to load JSON: Not Found") example_created
    (Http.updateDynamicInputs (answers_status "Not Found") (Some 0) 1 example_created) ∧
  fetch_failure 1 (ERunNode (num 7))
    (Error "No workflow JSON returned") example_created
    (Host.updateDynamicInputs (runs_to VNull) (Some 0) 1 example_created).
Proof.
  split; [reflexivity|].
  destruct (fetch_failure_keeps_widgets (answers_status "Not Found") (runs_to VNull)
              0 1 example_created eq_refl) as [Hhttp Hhost].
  split.
  - apply (Hhttp (Error "Failed to load JSON: Not Found")).
    apply (response_not_ok _ _
             {| ok := false; statusText := "Not Found"; json := Ok VNull |});
      reflexivity.
  - apply (Hhost (Error "No workflow JSON returned")).
    apply (run_returns_nothing _ _ VNull); reflexivity.
Defined.

(** C4: a refresh that goes through first removes every widget and
    every input whose name starts with [dyn_] and then adds the new
    widgets, so that the [dyn_] widgets it leaves are those of the
    response alone; a second refresh with the same response leaves the
    same widgets and inputs. *)
Theorem refresh_replaces_dynamic_widgets (net : network) (g : graph)
    pathWidget btn w :
  ToBoolean (path_of pathWidget w) = true →
  wf_world btn w →
  (∀ v, http_returns net (path_of pathWidget w) v →
     (Http.updateDynamicInputs net (Some pathWidget) btn w).1 = Ok tt →
     replaces_dynamic w v (Http.updateDynamicInputs net (Some pathWidget) btn w) ∧
     same_lists (Http.updateDynamicInputs net (Some pathWidget) btn w)
       (Http.updateDynamicInputs net (Some pathWidget) btn
          (Http.updateDynamicInputs net (Some pathWidget) btn w).2)) ∧
  (∀ v, host_returns g (this_id w) v →
     (Host.updateDynamicInputs g (Some pathWidget) btn w).1 = Ok tt →
     replaces_dynamic w v (Host.updateDynamicInputs g (Some pathWidget) btn w) ∧
     same_lists (Host.updateDynamicInputs g (Some pathWidget) btn w)
       (Host.updateDynamicInputs g (Some pathWidget) btn
          (Host.updateDynamicInputs g (Some pathWidget) btn w).2)).
Proof.
  intros Hpath Hwf. split; intros v Hret.
  - rewrite (http_refresh_runs net pathWidget btn w) by done.
    unfold path_of in Hret. rewrite (http_returns_outcome _ _ _ Hret).
    intros Hok. apply refresh_end_Ok in Hok as Hv.
    split; [by apply refresh_end_replaces|].
    pose proof (path_of_refresh_end btn
      (EFetch (value_at (store w) pathWidget) (request (value_at (store w) pathWidget)))
      v w pathWidget Hv Hpath) as Hsame.
    unfold path_of in Hsame.
    rewrite http_refresh_runs by (by rewrite Hsame).
    rewrite Hsame, (http_returns_outcome _ _ _ Hret).
    by apply refresh_end_same_lists.
  - rewrite (host_refresh_runs g pathWidget btn w) by done.
    rewrite (host_returns_outcome _ _ _ Hret).
    intros Hok. apply refresh_end_Ok in Hok as Hv.
    split; [by apply refresh_end_replaces|].
    pose proof (path_of_refresh_end btn (ERunNode (this_id w))
      v w pathWidget Hv Hpath) as Hsame.
    unfold path_of in Hsame.
    rewrite host_refresh_runs by (by rewrite Hsame).
    rewrite refresh_end_id, (host_returns_outcome _ _ _ Hret).
    by apply refresh_end_same_lists.
Qed.

Lemma refresh_replaces_dynamic_widgets_witness :
  ToBoolean (path_of 0 example_created) = true ∧
  wf_world 1 example_created ∧
  (replaces_dynamic example_created example_workflow
     (Http.updateDynamicInputs (answers example_workflow) (Some 0) 1 example_created) ∧
   same_lists
     (Http.updateDynamicInputs (answers example_workflow) (Some 0) 1 example_created)
     (Http.updateDynamicInputs (answers example_workflow) (Some 0) 1
        (Http.updateDynamicInputs (answers example_workflow) (Some 0) 1
           example_created).2)) ∧
  (replaces_dynamic example_created example_workflow
     (Host.updateDynamicInputs (runs_to example_workflow) (Some 0) 1 example_created) ∧
   same_lists
     (Host.updateDynamicInputs (runs_to example_workflow) (Some 0) 1 example_created)
     (Host.updateDynamicInputs (runs_to example_workflow) (Some 0) 1
        (Host.updateDynamicInputs (runs_to example_workflow) (Some 0) 1
           example_created).2)).
Proof.
  split; [reflexivity|]. split; [exact example_created_wf|].
  destruct (refresh_replaces_dynamic_widgets (answers example_workflow)
              (runs_to example_workflow) 0 1 example_created eq_refl
              example_created_wf)
    as [Hhttp Hhost].
  split.
  - apply (Hhttp example_workflow); [apply answers_returns|reflexivity].
  - apply (Hhost example_workflow); [apply host_ok|]; reflexivity.
Defined.

(** C5: for a non-empty path the first variant's [fetchWorkflowJSON]
    issues one request, a POST to that path with the JSON content type
    and the body [{ path }]; on an ok response it returns the parsed
    JSON, and on a response that is not ok it throws. *)
Theorem http_fetch_posts_once (net : network) path w :
  ToBoolean path = true →
  (Http.fetchWorkflowJSON net path w).2 =
    log [EFetch path {| method := "POST";
                        headers := [("Content-Type", "application/json")];
                        body := VObj [("path", path)] |}] w ∧
  (∀ response v,
     net path (request path) = Ok response → ok response = true →
     json response = Ok v →
     (Http.fetchWorkflowJSON net path w).1 = Ok v) ∧
  (∀ response,
     net path (request path) = Ok response → ok response = false →
     (Http.fetchWorkflowJSON net path w).1 =
       Throw (Error ("Failed to load JSON: " +:+ statusText response))).
Proof.
  intros Hpath. rewrite http_fetch_runs by done. simpl.
  split; [done|]. unfold http_outcome. split.
  - intros response v -> -> ->. done.
  - intros response -> ->. done.
Qed.

Lemma http_fetch_posts_once_witness :
  ToBoolean (VStr "wf.json") = true ∧
  (Http.fetchWorkflowJSON (answers example_workflow) (VStr "wf.json") example_created).1
    = Ok example_workflow ∧
  (Http.fetchWorkflowJSON (answers_status "Not Found") (VStr "wf.json") example_created).1
    = Throw (Error "Failed to load JSON: Not Found").
Proof.
  split; [reflexivity|]. split.
  - destruct (http_fetch_posts_once (answers example_workflow) (VStr "wf.json")
                example_created eq_refl) as [_ [Hok _]].
    apply (Hok {| ok := true; statusText := "OK"; json := Ok example_workflow |});
      reflexivity.
  - destruct (http_fetch_posts_once (answers_status "Not Found") (VStr "wf.json")
                example_created eq_refl) as [_ [_ Hnot]].
    apply (Hnot {| ok := false; statusText := "Not Found"; json := Ok VNull |});
      reflexivity.
Defined.

(** C6, amended: the label is only ever written with the idle and the
    loading text; a refresh with a non-empty path starts by setting the
    loading text, and when it returns, after success or after a failed
    fetch, the label is the idle text; a run without a path leaves the
    label as it found it. *)
Theorem label_idle_after_refresh (net : network) (g : graph) wp btn w :
  btn < length (store w) →
  label_toggles wp btn w (Http.updateDynamicInputs net wp btn w) ∧
  label_toggles wp btn w (Host.updateDynamicInputs g wp btn w).
Proof.
  intros Hbtn. destruct (path_missing wp w) eqn:Hmiss.
  - rewrite http_handler_shared, host_handler_shared.
    rewrite !refresh_with_missing by done.
    split; by apply missing_path_toggles.
  - destruct wp as [pathWidget|]; [|done]. simpl in Hmiss.
    apply negb_false_iff in Hmiss.
    rewrite http_refresh_runs, host_refresh_runs by done.
    split; by apply refresh_end_toggles.
Qed.

Lemma label_idle_after_refresh_witness :
  1 < length (store example_created) ∧
  label_toggles (Some 0) 1 example_created
    (Http.updateDynamicInputs (answers example_workflow) (Some 0) 1 example_created) ∧
  label_toggles (Some 0) 1 example_created
    (Host.updateDynamicInputs (runs_to example_workflow) (Some 0) 1 example_created).
Proof.
  split; [simpl; lia|].
  apply (label_idle_after_refresh (answers example_workflow) (runs_to example_workflow)).
  simpl; lia.
Defined.

(** C6 as stated fails: the rebuild of the response
    [{ "1": null, ... }] throws after the label was set to the loading
    text; the next run, the path emptied, ends on the missing path:
    it alerts and returns, and the label is still the loading text. *)
Lemma label_stays_loading_after_missing_path :
  (Http.updateDynamicInputs (answers broken_workflow) (Some 0) 1 example_created).1
    = Throw (TypeError "Cannot read properties of null") ∧
  name_at (store example_stuck) 1 = loading_label ∧
  path_missing (Some 0) example_stuck_cleared = true ∧
  Http.updateDynamicInputs (answers example_workflow) (Some 0) 1 example_stuck_cleared
    = (Ok tt, log [missing_path_alert] example_stuck_cleared) ∧
  Host.updateDynamicInputs (runs_to example_workflow) (Some 0) 1 example_stuck_cleared
    = (Ok tt, log [missing_path_alert] example_stuck_cleared) ∧
  name_at (store (log [missing_path_alert] example_stuck_cleared)) 1 = loading_label ∧
  loading_label ≠ idle_label.
Proof. repeat split; try reflexivity. discriminate. Qed.

(** C7: a refresh that goes through (the fetch succeeds and the rebuild
    completes) marks the canvas dirty exactly once, after the widget list
    has been updated; a run that ends on the missing path or on a failed
    fetch does not mark it. *)
Theorem canvas_dirty_once_on_success (net : network) (g : graph) wp btn w :
  (path_missing wp w = true →
     never_dirty w (Http.updateDynamicInputs net wp btn w) ∧
     never_dirty w (Host.updateDynamicInputs g wp btn w)) ∧
  (∀ pathWidget, wp = Some pathWidget → ToBoolean (path_of pathWidget w) = true →
     (∀ e, http_fails net (path_of pathWidget w) e →
        never_dirty w (Http.updateDynamicInputs net wp btn w)) ∧
     (∀ e, host_fails g (this_id w) e →
        never_dirty w (Host.updateDynamicInputs g wp btn w)) ∧
     (∀ v, http_returns net (path_of pathWidget w) v →
        (Http.updateDynamicInputs net wp btn w).1 = Ok tt →
        dirty_once_after_update w v (Http.updateDynamicInputs net wp btn w)) ∧
     (∀ v, host_returns g (this_id w) v →
        (Host.updateDynamicInputs g wp btn w).1 = Ok tt →
        dirty_once_after_update w v (Host.updateDynamicInputs g wp btn w))).
Proof.
  split.
  - intros Hmiss. rewrite http_handler_shared, host_handler_shared.
    rewrite !refresh_with_missing by done.
    split; apply only_alerts_clean, only_alerts_log.
  - intros pathWidget -> Hpath. split; [|split; [|split]].
    + intros e He. run_http He. by apply refresh_end_failed_clean.
    + intros e He. run_host He. by apply refresh_end_failed_clean.
    + intros v Hv. run_http Hv. intros Hok.
      apply refresh_end_dirty; [done|]. by apply refresh_end_Ok in Hok.
    + intros v Hv. run_host Hv. intros Hok.
      apply refresh_end_dirty; [done|]. by apply refresh_end_Ok in Hok.
Qed.

Lemma canvas_dirty_once_on_success_witness :
  (never_dirty example_cleared
     (Http.updateDynamicInputs (answers example_workflow) (Some 0) 1 example_cleared) ∧
   never_dirty example_cleared
     (Host.updateDynamicInputs (runs_to example_workflow) (Some 0) 1 example_cleared)) ∧
  dirty_once_after_update example_created example_workflow
    (Http.updateDynamicInputs (answers example_workflow) (Some 0) 1 example_created) ∧
  dirty_once_after_update example_created example_workflow
    (Host.updateDynamicInputs (runs_to example_workflow) (Some 0) 1 example_created).
Proof.
  split.
  - apply (canvas_dirty_once_on_success (answers example_workflow)
             (runs_to example_workflow) (Some 0) 1 example_cleared).
    reflexivity.
  - destruct (canvas_dirty_once_on_success (answers example_workflow)
                (runs_to example_workflow) (Some 0) 1 example_created)
      as [_ Hrun].
    destruct (Hrun 0 eq_refl eq_refl) as (_ & _ & Hhttp & Hhost).
    split.
    + apply Hhttp; [apply answers_returns|reflexivity].
    + apply Hhost; [apply host_ok|]; reflexivity.
Defined.

(** C8: given the same workflow JSON result from their data sources,
    that is, when the [fetchWorkflowJSON] of the two variants end alike
    on the node (with the same JSON, or with the same error), the two
    handlers end with the same result, the same stored widgets (the
    button's label among them), the same widget and input lists and the
    same events, the mark on the canvas among them, but for the call
    that obtains the JSON. *)
Theorem variants_agree_on_same_result (net : network) (g : graph)
    pathWidget btn w r :
  (Http.fetchWorkflowJSON net (path_of pathWidget w) w).1 = r →
  (Host.fetchWorkflowJSON g (path_of pathWidget w) w).1 = r →
  same_outcome w (Http.updateDynamicInputs net (Some pathWidget) btn w)
                 (Host.updateDynamicInputs g (Some pathWidget) btn w).
Proof.
  intros Hhttp Hhost. destruct (ToBoolean (path_of pathWidget w)) eqn:Hpath.
  - rewrite http_fetch_runs in Hhttp by done. rewrite host_fetch_runs in Hhost.
    simpl in Hhttp, Hhost. subst r.
    rewrite http_refresh_runs, host_refresh_runs by done.
    unfold path_of in Hhost. rewrite <- Hhost.
    destruct (refresh_end_same btn
      (EFetch (value_at (store w) pathWidget) (request (value_at (store w) pathWidget)))
      (ERunNode (this_id w)) (host_outcome g (this_id w)) w) as (H1 & H2 & H3 & H4).
    repeat split; try done.
    by apply refresh_end_same_events.
  - rewrite http_handler_shared, host_handler_shared.
    rewrite !refresh_with_empty by done. by repeat split.
Qed.

Lemma variants_agree_on_same_result_witness :
  same_outcome example_refreshed
    (Http.updateDynamicInputs (answers example_workflow) (Some 0) 1 example_refreshed)
    (Host.updateDynamicInputs (runs_to example_workflow) (Some 0) 1 example_refreshed) ∧
  same_outcome example_created
    (Http.updateDynamicInputs (answers_status "Not Found") (Some 0) 1 example_created)
    (Host.updateDynamicInputs (λ _, Throw (Error "Failed to load JSON: Not Found"))
       (Some 0) 1 example_created).
Proof.
  split.
  - by apply (variants_agree_on_same_result (answers example_workflow)
                (runs_to example_workflow) 0 1 example_refreshed (Ok example_workflow)).
  - by apply (variants_agree_on_same_result (answers_status "Not Found")
                (λ _, Throw (Error "Failed to load JSON: Not Found")) 0 1
                example_created (Throw (Error "Failed to load JSON: Not Found"))).
Defined.

(** C9: a node entry that is an object (any value but [null] and
    [undefined]) and whose [inputs] is absent or falsy counts for an
    empty set of inputs: the handler runs as if the entry were not in
    the response, adding no widget for it, raising no error for it and
    going on with the entries after it. *)
Theorem node_without_inputs_is_skipped (net net' : network) (g g' : graph)
    pathWidget btn w nodeId node before after :
  ToBoolean (path_of pathWidget w) = true →
  nullish node = false →
  ToBoolean (lookup_prop "inputs" (own_props node)) = false →
  ¬ In nodeId (map fst (before ++ after)) →
  (http_returns net (path_of pathWidget w) (VObj (before ++ (nodeId, node) :: after)) →
   http_returns net' (path_of pathWidget w) (VObj (before ++ after)) →
   Http.updateDynamicInputs net (Some pathWidget) btn w =
   Http.updateDynamicInputs net' (Some pathWidget) btn w) ∧
  (host_returns g (this_id w) (VObj (before ++ (nodeId, node) :: after)) →
   host_returns g' (this_id w) (VObj (before ++ after)) →
   Host.updateDynamicInputs g (Some pathWidget) btn w =
   Host.updateDynamicInputs g' (Some pathWidget) btn w).
Proof.
  intros Hpath Hnode Hinputs Hnot. split; intros Hwith Hwithout.
  - rewrite !http_refresh_runs by done. unfold path_of in *.
    rewrite (http_returns_outcome _ _ _ Hwith), (http_returns_outcome _ _ _ Hwithout).
    by apply refresh_end_skip.
  - rewrite !host_refresh_runs by done.
    rewrite (host_returns_outcome _ _ _ Hwith), (host_returns_outcome _ _ _ Hwithout).
    by apply refresh_end_skip.
Qed.

Lemma node_without_inputs_is_skipped_witness :
  ToBoolean (path_of 0 example_created) = true ∧
  nullish example_bare_node.2 = false ∧
  ToBoolean (lookup_prop "inputs" (own_props example_bare_node.2)) = false ∧
  Http.updateDynamicInputs
    (answers (VObj [example_seed_node; example_bare_node; example_last_node]))
    (Some 0) 1 example_created =
  Http.updateDynamicInputs
    (answers (VObj [example_seed_node; example_last_node]))
    (Some 0) 1 example_created ∧
  Host.updateDynamicInputs
    (runs_to (VObj [example_seed_node; example_bare_node; example_last_node]))
    (Some 0) 1 example_created =
  Host.updateDynamicInputs
    (runs_to (VObj [example_seed_node; example_last_node]))
    (Some 0) 1 example_created.
Proof.
  split; [reflexivity|]. split; [reflexivity|]. split; [reflexivity|].
  destruct (node_without_inputs_is_skipped
              (answers (VObj [example_seed_node; example_bare_node; example_last_node]))
              (answers (VObj [example_seed_node; example_last_node]))
              (runs_to (VObj [example_seed_node; example_bare_node; example_last_node]))
              (runs_to (VObj [example_seed_node; example_last_node]))
              0 1 example_created "4" (VObj [("class_type", VStr "Loader")])
              [example_seed_node] [example_last_node])
    as [Hhttp Hhost].
  - reflexivity.
  - reflexivity.
  - reflexivity.
  - simpl. intros [H|[H|[]]]; discriminate.
  - split.
    + apply Hhttp; apply answers_returns.
    + apply Hhost; apply host_ok; reflexivity.
Defined.

(** C10: a refresh that goes through keeps every widget and every input
    whose name does not start with [dyn_], the path widget and the
    button among them, in their order; of the stored widgets only the
    button's label is written. *)
Theorem static_widgets_preserved (net : network) (g : graph) pathWidget btn w :
  ToBoolean (path_of pathWidget w) = true →
  is_dynamic (name_at (store w) btn) = false →
  (∀ v, http_returns net (path_of pathWidget w) v →
     (Http.updateDynamicInputs net (Some pathWidget) btn w).1 = Ok tt →
     preserves_static btn w (Http.updateDynamicInputs net (Some pathWidget) btn w)) ∧
  (∀ v, host_returns g (this_id w) v →
     (Host.updateDynamicInputs g (Some pathWidget) btn w).1 = Ok tt →
     preserves_static btn w (Host.updateDynamicInputs g (Some pathWidget) btn w)).
Proof.
  intros Hpath Hbtn. split; intros v Hv.
  - run_http Hv. intros Hok.
    apply refresh_end_preserves; [|done]. by apply refresh_end_Ok in Hok.
  - run_host Hv. intros Hok.
    apply refresh_end_preserves; [|done]. by apply refresh_end_Ok in Hok.
Qed.

Lemma static_widgets_preserved_witness :
  ToBoolean (path_of 0 example_created) = true ∧
  is_dynamic (name_at (store example_created) 1) = false ∧
  preserves_static 1 example_created
    (Http.updateDynamicInputs (answers example_workflow) (Some 0) 1 example_created) ∧
  preserves_static 1 example_created
    (Host.updateDynamicInputs (runs_to example_workflow) (Some 0) 1 example_created).
Proof.
  split; [reflexivity|]. split; [reflexivity|].
  destruct (static_widgets_preserved (answers example_workflow)
              (runs_to example_workflow) 0 1 example_created eq_refl eq_refl)
    as [Hhttp Hhost].
  split.
  - apply (Hhttp example_workflow); [apply answers_returns|reflexivity].
  - apply (Hhost example_workflow); [apply host_ok|]; reflexivity.
Defined.

(** * Further properties of the code *)

(** ** A refresh, whatever the data source answers *)

Lemma refresh_end_widgets_any btn t v w :
  this_widgets (refresh_end btn t (Ok v) w).2 =
  kept_refs btn w ++ seq (length (store w)) (length (rebuilt_widgets v)).
Proof.
  unfold refresh_end, resume, awaiting, rebuilt_widgets.
  destruct (rebuild_result (fields v)); simpl; by rewrite length_alter.
Qed.

Lemma refresh_end_inputs_any btn t v w :
  this_inputs (refresh_end btn t (Ok v) w).2 = kept_inputs w.
Proof.
  unfold refresh_end, resume, awaiting.
  by destruct (rebuild_result (fields v)).
Qed.

Lemma rebuild_result_cases entries :
  rebuild_result entries = Ok tt ∨ ∃ msg, rebuild_result entries = Throw (TypeError msg).
Proof.
  unfold rebuild_result. destruct (first_nullish entries) as [[]|]; eauto.
Qed.

Lemma rebuild_result_throws v :
  well_shaped v = false → ∃ msg, rebuild_result (fields v) = Throw (TypeError msg).
Proof.
  intros Hv. destruct (rebuild_result_cases (fields v)) as [Hok|Hthrow]; [|done].
  apply rebuild_result_Ok in Hok. unfold well_shaped in Hv. congruence.
Qed.

Lemma lookup_relabel name btn (st : list widget) r x :
  st !! r = Some x →
  alter (set_wname name) btn st !! r =
  Some (if decide (r = btn) then set_wname name x else x).
Proof.
  intros Hx. destruct (decide (r = btn)) as [->|Hne].
  - by rewrite list_lookup_alter_eq, Hx.
  - by rewrite list_lookup_alter_ne.
Qed.

Lemma same_but_name_relabel name (btn r : nat) x :
  same_but_name x (if decide (r = btn) then set_wname name x else x) ∧
  (r ≠ btn → (if decide (r = btn) then set_wname name x else x) = x).
Proof. destruct (decide (r = btn)); by repeat split. Qed.

Lemma same_but_name_trans x y z :
  same_but_name x y → same_but_name y z → same_but_name x z.
Proof. intros (? & ? & ?) (? & ? & ?). repeat split; congruence. Qed.

(** No run of [refresh_end] touches a stored widget but for the button's
    name. *)
Lemma refresh_end_lookup btn t r0 w r x :
  store w !! r = Some x →
  ∃ x', store (refresh_end btn t r0 w).2 !! r = Some x' ∧
        same_but_name x x' ∧ (r ≠ btn → x' = x).
Proof.
  intros Hx.
  pose proof (lookup_relabel loading_label btn _ r x Hx) as Hloading.
  destruct (same_but_name_relabel loading_label btn r x) as [Hs1 He1].
  set (x1 := if decide (r = btn) then set_wname loading_label x else x) in *.
  pose proof (lookup_relabel idle_label btn _ r x1 Hloading) as Hidle.
  destruct (same_but_name_relabel idle_label btn r x1) as [Hs2 He2].
  unfold refresh_end, resume, awaiting. destruct r0 as [v|e].
  - destruct (rebuild_result (fields v)) as [[]|e]; simpl.
    + exists (if decide (r = btn) then set_wname idle_label x1 else x1).
      split; [|split].
      * apply (lookup_relabel idle_label btn). by apply lookup_app_l_Some.
      * by apply (same_but_name_trans x x1).
      * intros Hne. by rewrite He2, He1.
    + exists x1. split; [by apply lookup_app_l_Some|]. by split.
  - simpl. exists (if decide (r = btn) then set_wname idle_label x1 else x1).
    split; [done|]. split.
    + by apply (same_but_name_trans x x1).
    + intros Hne. by rewrite He2, He1.
Qed.

Lemma refresh_end_grows btn t r0 w :
  (length (store w) ≤ length (store (refresh_end btn t r0 w).2))%nat.
Proof.
  unfold refresh_end, resume, awaiting. destruct r0 as [v|e].
  - destruct (rebuild_result (fields v)); simpl;
      rewrite ?length_alter, length_app, ?length_alter; lia.
  - simpl. by rewrite !length_alter.
Qed.

(** A widget that is not a [dyn_] one on entry passes the filter, which
    sees the button under its loading text. *)
Lemma kept_refs_static btn w :
  List.filter (λ r, negb (is_dynamic (name_at (store w) r))) (kept_refs btn w) =
  List.filter (λ r, negb (is_dynamic (name_at (store w) r))) (this_widgets w).
Proof.
  unfold kept_refs. induction (this_widgets w) as [|r refs IH]; [done|]. simpl.
  destruct (negb (is_dynamic (name_at (store w) r))) eqn:Hentry.
  - assert (negb (is_dynamic (name_at (alter (set_wname loading_label) btn (store w)) r))
            = true) as ->.
    { destruct (decide (r = btn)) as [->|Hne]; [|by rewrite name_at_alter_ne].
      unfold name_at in *. rewrite list_lookup_alter_eq.
      by destruct (store w !! btn). }
    simpl. by rewrite Hentry, IH.
  - destruct (negb (is_dynamic (name_at (alter (set_wname loading_label) btn (store w)) r)));
      simpl; by rewrite ?Hentry, IH.
Qed.

Lemma kept_inputs_static w :
  List.filter (λ i, negb (is_dynamic (iname i))) (kept_inputs w) = kept_inputs w.
Proof.
  apply filter_all, List.Forall_forall. intros i Hi.
  by apply filter_In in Hi as [_ Hi].
Qed.

Lemma refresh_end_keeps_static btn t r0 w :
  keeps_static btn w (refresh_end btn t r0 w).
Proof.
  split; [|split].
  - intros r x. apply refresh_end_lookup.
  - destruct r0 as [v|e]; [|done].
    rewrite refresh_end_inputs_any. apply kept_inputs_static.
  - destruct r0 as [v|e].
    + exists (kept_refs btn w), (seq (length (store w)) (length (rebuilt_widgets v))).
      split; [apply refresh_end_widgets_any|]. split; [|apply kept_refs_static].
      apply List.Forall_forall. intros r Hr. apply in_seq in Hr. lia.
    + exists (this_widgets w), []. split; [by rewrite app_nil_r|]. by split.
Qed.

Lemma missing_path_keeps_static btn w :
  keeps_static btn w (Ok tt, log [missing_path_alert] w).
Proof.
  split; [|split].
  - intros r x Hx. exists x. by repeat split.
  - done.
  - exists (this_widgets w), []. split; [by rewrite app_nil_r|]. by split.
Qed.

Lemma count_transport_adds ws : count_transport (map add_event ws) = 0.
Proof. induction ws as [|x ws IH]; [done|]. apply IH. Qed.

Lemma tail_events_no_transport btn r w : count_transport (tail_events btn r w) = 0.
Proof.
  unfold tail_events, count_transport. destruct r as [v|e]; [|done].
  simpl. rewrite List.filter_app, length_app.
  fold (count_transport (map add_event (flat_map node_widgets (entries_done (fields v))))).
  rewrite count_transport_adds.
  by destruct (rebuild_result (fields v)).
Qed.

Lemma tail_events_alerts btn r w :
  (length (List.filter is_alert (tail_events btn r w)) ≤ 1)%nat.
Proof.
  unfold tail_events. destruct r as [v|e]; [|simpl; lia].
  simpl. rewrite List.filter_app, length_app.
  assert (List.filter is_alert
            (map add_event (flat_map node_widgets (entries_done (fields v)))) = [])
    as ->.
  { apply filter_none, List.Forall_forall. intros e He.
    by apply in_map_iff in He as [x [<- _]]. }
  destruct (rebuild_result (fields v)); simpl; lia.
Qed.

Lemma refresh_end_asks_once btn t r w :
  is_transport t = true →
  count_transport (new_events w (refresh_end btn t r w).2) = 1 ∧
  (length (List.filter is_alert (new_events w (refresh_end btn t r w).2)) ≤ 1)%nat.
Proof.
  intros Ht. rewrite refresh_end_events. split.
  - pose proof (tail_events_no_transport btn r w) as Htail.
    unfold count_transport in *. simpl. rewrite Ht. simpl. by rewrite Htail.
  - pose proof (tail_events_alerts btn r w) as Htail.
    simpl. destruct t; try done; simpl; lia.
Qed.

Lemma rebuilt_widgets_dynamic v :
  Forall (λ x, is_dynamic (wname x) = true) (rebuilt_widgets v).
Proof.
  unfold rebuilt_widgets, node_widgets.
  apply List.Forall_forall. intros x Hx.
  apply in_flat_map in Hx as [entry [_ Hx]].
  apply in_flat_map in Hx as [field [_ Hx]].
  by apply (proj1 (List.Forall_forall _ _) (field_widget_dynamic entry.1 field)).
Qed.

Lemma kept_view_loading btn w :
  Forall (λ x, is_dynamic (wname x) = false)
    (omap (λ r, alter (set_wname loading_label) btn (store w) !! r) (kept_refs btn w)).
Proof.
  apply List.Forall_forall. intros x Hx.
  apply list_elem_of_In, list_elem_of_omap in Hx as [r [Hr Hx]].
  apply list_elem_of_In in Hr.
  pose proof (proj1 (List.Forall_forall _ _) (kept_refs_names btn w) r Hr) as Hn.
  simpl in Hn. by rewrite (name_at_Some _ _ _ Hx) in Hn.
Qed.

Lemma filter_flip {A} (p : A → bool) (l : list A) :
  Forall (λ x, p x = true) l → List.filter (λ x, negb (p x)) l = [].
Proof. induction 1 as [|x l Hx _ IH]; simpl; [done|]. by rewrite Hx. Qed.

Lemma filter_keep {A} (p : A → bool) (l : list A) :
  Forall (λ x, p x = false) l → List.filter (λ x, negb (p x)) l = l.
Proof. induction 1 as [|x l Hx _ IH]; simpl; [done|]. by rewrite Hx, IH. Qed.

Lemma refresh_end_midway btn t v w :
  well_shaped v = false →
  stops_midway btn t w v (refresh_end btn t (Ok v) w).
Proof.
  intros Hv. destruct (rebuild_result_throws v Hv) as [msg Hmsg].
  assert (store (refresh_end btn t (Ok v) w).2 =
          alter (set_wname loading_label) btn (store w) ++ rebuilt_widgets v) as Hstore.
  { unfold refresh_end, resume, awaiting. by rewrite Hmsg. }
  split; [|split; [|split; [|split; [|split]]]].
  - exists msg. unfold refresh_end, resume, awaiting. by rewrite Hmsg.
  - exact Hstore.
  - apply refresh_end_inputs_any.
  - apply refresh_end_widgets_any.
  - rewrite refresh_end_events, refresh_end_inputs_any.
    unfold tail_events, rebuilt_widgets. rewrite Hmsg. simpl.
    by rewrite app_nil_r.
  - intros [Hbtn Hrefs].
    assert (widgets_of (refresh_end btn t (Ok v) w).2 =
            omap (λ r, alter (set_wname loading_label) btn (store w) !! r)
                 (kept_refs btn w) ++ rebuilt_widgets v) as Hview.
    { unfold widgets_of. rewrite Hstore, refresh_end_widgets_any, omap_app. f_equal.
      - apply omap_lookup_app_l. rewrite length_alter. by apply kept_refs_lt.
      - rewrite <- (length_alter (set_wname loading_label) (store w) btn).
        apply omap_lookup_seq. }
    rewrite Hview, !List.filter_app.
    rewrite (filter_none _ _ (kept_view_loading btn w)).
    rewrite (filter_all _ _ (rebuilt_widgets_dynamic v)).
    rewrite (filter_keep _ _ (kept_view_loading btn w)).
    rewrite (filter_flip _ _ (rebuilt_widgets_dynamic v)).
    split; [done|]. split; [by rewrite app_nil_r|].
    rewrite Hstore, name_at_app_l by (by rewrite length_alter).
    by apply name_at_alter_eq.
Qed.

(** ** The hook and the life of a node *)

Lemma onNodeCreated_same : Http.onNodeCreated = Host.onNodeCreated.
Proof. reflexivity. Qed.

Lemma onNodeCreated_runs w :
  Http.onNodeCreated w =
  (Ok (List.find (λ r, name_at (store w) r =? "workflow_path") (this_widgets w),
       length (store w)),
   World (store w ++ [refresh_button]) (this_id w)
         (this_widgets w ++ [length (store w)]) (this_inputs w)
         (trace w ++ [EAddWidget "button" idle_label VUndefined;
                      ESetCallback (length (store w))])).
Proof.
  unfold Http.onNodeCreated, mbind, M_bind, find_widget, addWidget, set_callback,
    update_store, log.
  simpl. f_equal. f_equal.
  - rewrite <- (Nat.add_0_r (length (store w))) at 1. by rewrite alter_app_r.
  - by rewrite <- app_assoc.
Qed.

Lemma onNodeCreated_installs w :
  Forall (λ r, r < length (store w)) (this_widgets w) →
  button_installed w (Http.onNodeCreated w).
Proof.
  intros Hrefs. rewrite onNodeCreated_runs.
  eexists. split; [reflexivity|]. split; [reflexivity|]. simpl.
  split; [done|]. split; [done|]. split; [done|].
  split; [split; [split|]|split]; simpl.
  - rewrite length_app. simpl. lia.
  - rewrite length_app. simpl. apply Forall_app. split.
    + eapply Forall_impl; [exact Hrefs|]. simpl. intros; lia.
    + repeat constructor. lia.
  - left. unfold name_at. by rewrite list_lookup_middle.
  - apply in_or_app. right. by left.
  - destruct (List.find _ (this_widgets w)) as [r|] eqn:Hfind; [|done].
    apply find_some in Hfind as [Hin Hname].
    pose proof (proj1 (List.Forall_forall _ _) Hrefs r Hin) as Hlt. simpl in Hlt.
    split; [lia|]. split; [apply in_or_app; by left|].
    rewrite name_at_app_l by done. by apply String.eqb_eq.
Qed.

Lemma name_at_set_value v r st r' :
  name_at (alter (set_wvalue v) r st) r' = name_at st r'.
Proof.
  unfold name_at. destruct (decide (r = r')) as [->|Hne].
  - rewrite list_lookup_alter_eq. by destruct (lookup _ _).
  - by rewrite list_lookup_alter_ne.
Qed.

Lemma edit_keeps_installed wp btn r v w :
  installed wp btn w → installed wp btn (user_sets_value r v w).
Proof.
  intros [[[Hbtn Hrefs] Hlabel] [Hin Hpath]].
  split; [split; [split|]|split]; simpl.
  - by rewrite length_alter.
  - by rewrite length_alter.
  - by rewrite name_at_set_value.
  - done.
  - destruct wp as [pathWidget|]; [|done].
    by rewrite name_at_set_value.
Qed.

Lemma kept_static_elem w (kept : list nat) r :
  List.filter (λ r, negb (is_dynamic (name_at (store w) r))) kept =
    List.filter (λ r, negb (is_dynamic (name_at (store w) r))) (this_widgets w) →
  In r (this_widgets w) →
  is_dynamic (name_at (store w) r) = false →
  In r kept.
Proof.
  intros Hsame Hin Hname.
  assert (In r (List.filter (λ r, negb (is_dynamic (name_at (store w) r))) kept))
    as Hr.
  { rewrite Hsame. apply filter_In. split; [done|]. by rewrite Hname. }
  by apply filter_In in Hr as [Hr _].
Qed.

(** A run that keeps the static part of the node and leaves the handler
    ready keeps the button and the path widget in place. *)
Lemma run_keeps_installed wp btn w (out : result unit * world) :
  keeps_static btn w out →
  handler_ready btn out.2 →
  installed wp btn w →
  installed wp btn out.2.
Proof.
  intros (Hstore & _ & kept & added & Hlist & _ & Hkept) Hready
         [Hready0 [Hin Hpath]].
  split; [done|]. split.
  - rewrite Hlist. apply in_or_app. left.
    apply (kept_static_elem w kept btn Hkept Hin).
    by apply handler_ready_not_dynamic.
  - destruct wp as [pathWidget|]; [|done].
    destruct Hpath as (Hne & Hinp & Hname). split; [done|]. split.
    + rewrite Hlist. apply in_or_app. left.
      apply (kept_static_elem w kept pathWidget Hkept Hinp).
      by rewrite Hname.
    + destruct Hready0 as [[_ Hrefs] _].
      pose proof (proj1 (List.Forall_forall _ _) Hrefs pathWidget Hinp) as Hlt.
      simpl in Hlt.
      destruct (lookup_lt_is_Some_2 _ _ Hlt) as [x Hx].
      destruct (Hstore pathWidget x Hx) as (x' & Hx' & _ & Hsame).
      rewrite (name_at_Some _ _ _ Hx'), (Hsame Hne).
      by rewrite <- (name_at_Some _ _ _ Hx).
Qed.

Lemma act_keeps_installed wp btn a w :
  installed wp btn w → installed wp btn (act wp btn a w).
Proof.
  intros Hinst. destruct a as [net|g|r v]; simpl.
  - apply (run_keeps_installed wp btn w);
      [|exact (proj1 (handler_keeps_ready net (λ _, Ok VNull) wp btn w (proj1 Hinst)))|done].
    destruct (path_missing wp w) eqn:Hmiss.
    + rewrite http_handler_shared, refresh_with_missing by done.
      apply missing_path_keeps_static.
    + destruct wp as [pathWidget|]; [|done]. simpl in Hmiss.
      apply negb_false_iff in Hmiss. rewrite http_refresh_runs by done.
      apply refresh_end_keeps_static.
  - apply (run_keeps_installed wp btn w);
      [|exact (proj2 (handler_keeps_ready (λ _ _, Throw (TypeError "")) g wp btn w (proj1 Hinst)))|done].
    destruct (path_missing wp w) eqn:Hmiss.
    + rewrite host_handler_shared, refresh_with_missing by done.
      apply missing_path_keeps_static.
    + destruct wp as [pathWidget|]; [|done]. simpl in Hmiss.
      apply negb_false_iff in Hmiss. rewrite host_refresh_runs by done.
      apply refresh_end_keeps_static.
  - by apply edit_keeps_installed.
Qed.

(** ** The properties *)

(** X1: no run of either handler, on whatever path it ends, changes a
    stored widget other than in the button's name, removes an input or a
    widget that is not a [dyn_] one, or reorders those it keeps; new
    widgets come after them. *)
Theorem every_run_keeps_static (net : network) (g : graph) wp btn w :
  keeps_static btn w (Http.updateDynamicInputs net wp btn w) ∧
  keeps_static btn w (Host.updateDynamicInputs g wp btn w).
Proof.
  destruct (path_missing wp w) eqn:Hmiss.
  - rewrite http_handler_shared, host_handler_shared.
    rewrite !refresh_with_missing by done.
    split; apply missing_path_keeps_static.
  - destruct wp as [pathWidget|]; [|done]. simpl in Hmiss.
    apply negb_false_iff in Hmiss.
    rewrite http_refresh_runs, host_refresh_runs by done.
    split; apply refresh_end_keeps_static.
Qed.

(** X2: a run asks its data source exactly once when there is a path and
    never when there is none, whatever the answer, and shows at most one
    alert. *)
Theorem every_run_asks_at_most_once (net : network) (g : graph) wp btn w :
  asks_at_most_once wp w (Http.updateDynamicInputs net wp btn w) ∧
  asks_at_most_once wp w (Host.updateDynamicInputs g wp btn w).
Proof.
  unfold asks_at_most_once. destruct (path_missing wp w) eqn:Hmiss.
  - rewrite http_handler_shared, host_handler_shared.
    rewrite !refresh_with_missing by done.
    rewrite (new_events_app w _ [missing_path_alert]) by done.
    repeat split; simpl; lia.
  - destruct wp as [pathWidget|]; [|done]. simpl in Hmiss.
    apply negb_false_iff in Hmiss.
    rewrite http_refresh_runs, host_refresh_runs by done.
    set (fetch_event := EFetch _ _). set (run_event := ERunNode _).
    destruct (refresh_end_asks_once btn fetch_event
                (http_outcome net (value_at (store w) pathWidget)) w eq_refl).
    destruct (refresh_end_asks_once btn run_event
                (host_outcome g (this_id w)) w eq_refl).
    done.
Qed.

(** X3: when the fetched response has a [null] or [undefined] node entry,
    the handler throws a [TypeError] that nothing catches.  By then the
    [dyn_] inputs and the [dyn_] widgets, the stale ones of earlier
    refreshes included, are removed from the node's lists, and the
    widgets of the entries before the offending one are added: on a node
    whose references are valid the [dyn_] widgets are exactly those and
    the others are the ones they were.  The run ends there: its events
    are only the label, the call, the two assignments and the
    additions, so no alert and no mark on the canvas, and the label is
    left at the loading text. *)
Theorem null_entry_stops_rebuild (net : network) (g : graph) pathWidget btn w v :
  ToBoolean (path_of pathWidget w) = true →
  well_shaped v = false →
  (http_returns net (path_of pathWidget w) v →
     stops_midway btn (EFetch (path_of pathWidget w) (request (path_of pathWidget w)))
       w v (Http.updateDynamicInputs net (Some pathWidget) btn w)) ∧
  (host_returns g (this_id w) v →
     stops_midway btn (ERunNode (this_id w))
       w v (Host.updateDynamicInputs g (Some pathWidget) btn w)).
Proof.
  intros Hpath Hv. split; intros Hret.
  - run_http Hret. by apply refresh_end_midway.
  - run_host Hret. by apply refresh_end_midway.
Qed.

Lemma null_entry_stops_rebuild_witness :
  ToBoolean (path_of 0 example_refreshed) = true ∧
  well_shaped broken_workflow = false ∧
  length (List.filter (λ x, is_dynamic (wname x)) (widgets_of example_refreshed)) = 4 ∧
  stops_midway 1 (EFetch (VStr "wf.json") (request (VStr "wf.json")))
    example_refreshed broken_workflow
    (Http.updateDynamicInputs (answers broken_workflow) (Some 0) 1 example_refreshed) ∧
  stops_midway 1 (ERunNode (num 7))
    example_refreshed broken_workflow
    (Host.updateDynamicInputs (runs_to broken_workflow) (Some 0) 1 example_refreshed).
Proof.
  split; [reflexivity|]. split; [reflexivity|]. split; [reflexivity|].
  destruct (null_entry_stops_rebuild (answers broken_workflow) (runs_to broken_workflow)
              0 1 example_refreshed broken_workflow eq_refl eq_refl)
    as [Hhttp Hhost].
  split.
  - apply Hhttp, answers_returns.
  - apply Hhost, host_ok; reflexivity.
Defined.

(** X4: [beforeRegisterNodeDef] leaves every node type but
    [DynamicWorkflowEditorNode] alone.  On that type it installs a hook
    that runs the prototype's own hook first: if that one throws, the
    hook ends there and no button is added; if it returns, the hook
    appends the refresh button, idle, after the node's widgets, keeps
    the first widget named [workflow_path] for the handler, and leaves
    everything else as it was. *)
Theorem registered_hook_installs_button (original : option (M unit)) name w :
  (name ≠ "DynamicWorkflowEditorNode" →
     beforeRegisterNodeDef Http.onNodeCreated name original = None ∧
     beforeRegisterNodeDef Host.onNodeCreated name original = None) ∧
  (name = "DynamicWorkflowEditorNode" →
     ∃ hook,
       beforeRegisterNodeDef Http.onNodeCreated name original = Some hook ∧
       beforeRegisterNodeDef Host.onNodeCreated name original = Some hook ∧
       (∀ e w1, run_original original w = (Throw e, w1) → hook w = (Throw e, w1)) ∧
       (∀ w1, run_original original w = (Ok tt, w1) →
          Forall (λ r, r < length (store w1)) (this_widgets w1) →
          button_installed w1 (hook w))).
Proof.
  split.
  - intros Hname. unfold beforeRegisterNodeDef.
    by rewrite (proj2 (String.eqb_neq _ _) Hname).
  - intros ->. unfold beforeRegisterNodeDef. simpl.
    eexists. split; [reflexivity|]. split; [by rewrite onNodeCreated_same|].
    unfold run_original. destruct original as [f|]; simpl.
    + split.
      * intros e w1 Hf. unfold mbind, M_bind. by rewrite Hf.
      * intros w1 Hf Hrefs. unfold mbind, M_bind. rewrite Hf.
        by apply onNodeCreated_installs.
    + split; [done|]. intros w1 [= <-] Hrefs. by apply onNodeCreated_installs.
Qed.

Lemma registered_hook_installs_button_witness :
  button_installed example_node
    (default Http.onNodeCreated
       (beforeRegisterNodeDef Http.onNodeCreated "DynamicWorkflowEditorNode" None)
       example_node).
Proof.
  destruct (registered_hook_installs_button None "DynamicWorkflowEditorNode" example_node)
    as [_ Hhook].
  destruct (Hhook eq_refl) as (hook & Hhttp & _ & _ & Hok).
  rewrite Hhttp. simpl. apply (Hok example_node); [reflexivity|].
  repeat constructor.
Defined.

(** X5: the path widget is looked up once, when the node is created: on
    a node that has no widget named [workflow_path] at that moment, the
    handler closes over nothing, and every later run, in whatever state
    the node then is, only shows the missing-path alert. *)
Theorem path_widget_is_looked_up_once (net : network) (g : graph) w w2 :
  Forall (λ r, name_at (store w) r ≠ "workflow_path") (this_widgets w) →
  ∃ btn,
    (Http.onNodeCreated w).1 = Ok (None, btn) ∧
    (Host.onNodeCreated w).1 = Ok (None, btn) ∧
    only_alerts w2 (Http.updateDynamicInputs net None btn w2) ∧
    only_alerts w2 (Host.updateDynamicInputs g None btn w2).
Proof.
  intros Hnone. exists (length (store w)).
  assert (List.find (λ r, name_at (store w) r =? "workflow_path") (this_widgets w)
          = None) as Hfind.
  { induction Hnone as [|r refs Hr _ IH]; [done|]. simpl.
    by rewrite (proj2 (String.eqb_neq _ _) Hr). }
  rewrite <- onNodeCreated_same, onNodeCreated_runs, Hfind.
  split; [done|]. split; [done|].
  rewrite http_handler_shared, host_handler_shared, !refresh_with_absent.
  split; apply only_alerts_log.
Qed.

Lemma path_widget_is_looked_up_once_witness :
  ∃ btn,
    (Http.onNodeCreated example_plain_node).1 = Ok (None, btn) ∧
    (Host.onNodeCreated example_plain_node).1 = Ok (None, btn) ∧
    only_alerts example_created
      (Http.updateDynamicInputs (answers example_workflow) None btn example_created) ∧
    only_alerts example_created
      (Host.updateDynamicInputs (runs_to example_workflow) None btn example_created).
Proof.
  apply (path_widget_is_looked_up_once (answers example_workflow)
           (runs_to example_workflow) example_plain_node example_created).
  constructor; [done|constructor].
Defined.

(** X6: once the hook has run, whatever the user then does (clicks
    answered in any way by the network or the host, edits of widget
    values), the button stays stored and in [this.widgets] under one of
    its two labels, and the path widget stays in [this.widgets] under
    its name: no refresh removes or renames them. *)
Theorem button_and_path_widget_stay wp btn w actions :
  installed wp btn w →
  installed wp btn (session wp btn actions w).
Proof.
  revert w. induction actions as [|a actions IH]; intros w Hinst; [done|].
  simpl. apply IH. by apply act_keeps_installed.
Qed.

Lemma example_created_installed : installed (Some 0) 1 example_created.
Proof.
  split; [split; [exact example_created_wf|by left]|].
  split; [simpl; auto|]. split; [done|]. split; [simpl; auto|reflexivity].
Qed.

Lemma button_and_path_widget_stay_witness :
  installed (Some 0) 1 example_created ∧
  installed (Some 0) 1
    (session (Some 0) 1
       [ClickHttp (answers example_workflow); ClickHttp (answers broken_workflow);
        EditValue 0 (VStr ""); ClickHost (runs_to VNull)]
       example_created).
Proof.
  split; [exact example_created_installed|].
  apply button_and_path_widget_stay. exact example_created_installed.
Defined.

(** ** The two data sources *)

Lemma http_outcome_Ok net path v :
  http_outcome net path = Ok v ↔ http_returns net path v.
Proof.
  split; [|apply http_returns_outcome]. unfold http_outcome.
  destruct (net path (request path)) as [response|e] eqn:Hnet; [|done].
  destruct (ok response) eqn:Hok; [|done]. intros Hjson.
  by apply (http_ok _ _ _ response).
Qed.

Lemma http_outcome_Throw net path e :
  http_outcome net path = Throw e ↔ http_fails net path e.
Proof.
  split; [|apply http_fails_outcome]. unfold http_outcome.
  destruct (net path (request path)) as [response|e'] eqn:Hnet.
  - destruct (ok response) eqn:Hok.
    + intros Hjson. by apply (json_fails _ _ response).
    + intros [= <-]. by apply response_not_ok.
  - intros [= <-]. by apply fetch_throws.
Qed.

Lemma host_outcome_Ok g id v : host_outcome g id = Ok v ↔ host_returns g id v.
Proof.
  split; [|apply host_returns_outcome]. unfold host_outcome.
  destruct (g id) as [v'|e] eqn:Hg; [|done].
  destruct (ToBoolean v') eqn:Hv; [|done]. intros [= <-]. by apply host_ok.
Qed.

Lemma host_outcome_Throw g id e : host_outcome g id = Throw e ↔ host_fails g id e.
Proof.
  split; [|apply host_fails_outcome]. unfold host_outcome.
  destruct (g id) as [v'|e'] eqn:Hg.
  - destruct (ToBoolean v') eqn:Hv; [done|]. intros [= <-].
    by apply (run_returns_nothing _ _ v').
  - intros [= <-]. by apply run_throws.
Qed.

(** X7: the first variant's [fetchWorkflowJSON] returns a value only
    when its path is truthy and the network answered the request with an
    ok response whose body parsed to that value; it throws only for a
    falsy path, and then before any request is made, or for one of the
    three failures of the request (rejected, not ok, body not JSON); and
    it never touches the node. *)
Theorem http_fetch_returns_only_parsed_json (net : network) path w :
  (ToBoolean path = false →
     Http.fetchWorkflowJSON net path w = (Throw (Error "No path provided"), w)) ∧
  (∀ v, (Http.fetchWorkflowJSON net path w).1 = Ok v →
     ToBoolean path = true ∧ http_returns net path v) ∧
  (∀ e, (Http.fetchWorkflowJSON net path w).1 = Throw e →
     (ToBoolean path = false ∧ e = Error "No path provided") ∨
     (ToBoolean path = true ∧ http_fails net path e)) ∧
  store (Http.fetchWorkflowJSON net path w).2 = store w ∧
  this_widgets (Http.fetchWorkflowJSON net path w).2 = this_widgets w ∧
  this_inputs (Http.fetchWorkflowJSON net path w).2 = this_inputs w.
Proof.
  destruct (ToBoolean path) eqn:Hpath.
  - rewrite http_fetch_runs by done. simpl.
    split; [done|]. split; [|split; [|done]].
    + intros v Hv. split; [done|]. by apply http_outcome_Ok.
    + intros e He. right. split; [done|]. by apply http_outcome_Throw.
  - unfold Http.fetchWorkflowJSON. rewrite Hpath. simpl.
    split; [done|]. split; [done|]. split; [|done].
    intros e [= <-]. by left.
Qed.

Lemma http_fetch_returns_only_parsed_json_witness :
  Http.fetchWorkflowJSON (answers example_workflow) (VStr "") example_created =
    (Throw (Error "No path provided"), example_created) ∧
  http_returns (answers example_workflow) (VStr "wf.json") example_workflow.
Proof.
  split.
  - by apply (http_fetch_returns_only_parsed_json (answers example_workflow) (VStr "")
                example_created).
  - by apply (http_fetch_returns_only_parsed_json (answers example_workflow)
                (VStr "wf.json") example_created).
Defined.

(** X8: the second variant's [fetchWorkflowJSON] does not look at its
    path argument: whatever it is given, it asks the host once to run the
    node [this.id], returns what the host returned exactly when that is
    truthy, throws exactly when the host threw or returned a falsy
    value, and so never returns a falsy value. *)
Theorem host_fetch_ignores_path (g : graph) path path' w :
  Host.fetchWorkflowJSON g path w = Host.fetchWorkflowJSON g path' w ∧
  (Host.fetchWorkflowJSON g path w).2 = log [ERunNode (this_id w)] w ∧
  (∀ v, (Host.fetchWorkflowJSON g path w).1 = Ok v ↔ host_returns g (this_id w) v) ∧
  (∀ e, (Host.fetchWorkflowJSON g path w).1 = Throw e ↔ host_fails g (this_id w) e) ∧
  (∀ v, (Host.fetchWorkflowJSON g path w).1 = Ok v → ToBoolean v = true).
Proof.
  rewrite !host_fetch_runs. simpl.
  split; [done|]. split; [done|]. split; [|split].
  - intros v. apply host_outcome_Ok.
  - intros e. apply host_outcome_Throw.
  - intros v Hv. by apply host_outcome_Ok in Hv as [_ Hv].
Qed.

Lemma host_fetch_ignores_path_witness :
  host_returns (runs_to example_workflow) (this_id example_created) example_workflow ∧
  host_fails (runs_to VNull) (this_id example_created) (Error "No workflow JSON returned").
Proof.
  split.
  - by apply (host_fetch_ignores_path (runs_to example_workflow) VNull VNull
                example_created).
  - by apply (host_fetch_ignores_path (runs_to VNull) (VStr "a") VNull example_created).
Defined.

(** ** The path's text *)

Lemma alter_name_value name v btn r (st : list widget) :
  alter (set_wname name) btn (alter (set_wvalue v) r st) =
  alter (set_wvalue v) r (alter (set_wname name) btn st).
Proof.
  revert btn r. induction st as [|x st IH]; intros [|btn] [|r]; simpl; try done;
    f_equal; apply IH.
Qed.

Lemma value_at_lt st r : ToBoolean (value_at st r) = true → r < length st.
Proof.
  unfold value_at. intros H. apply lookup_lt_is_Some.
  destruct (st !! r); [by eexists|done].
Qed.

(** An edit of a widget's value before a refresh that does not read it
    can as well be made after it. *)
Lemma refresh_end_edit btn t r0 r v w :
  r < length (store w) →
  refresh_end btn t r0 (user_sets_value r v w) =
  ((refresh_end btn t r0 w).1, user_sets_value r v (refresh_end btn t r0 w).2).
Proof.
  intros Hr. unfold refresh_end, awaiting, after_loading, user_sets_value, update_store,
    log. simpl.
  destruct r0 as [workflowJSON|error]; simpl.
  - assert (List.filter
              (λ r1, negb (is_dynamic (name_at
                 (alter (set_wname loading_label) btn (alter (set_wvalue v) r (store w))) r1)))
              (this_widgets w) =
            List.filter
              (λ r1, negb (is_dynamic (name_at
                 (alter (set_wname loading_label) btn (store w)) r1)))
              (this_widgets w)) as Hkept.
    { apply filter_same, List.Forall_forall. intros r1 _.
      by rewrite alter_name_value, name_at_set_value. }
    unfold cleared, add_widgets, finished, update_store, log. simpl.
    rewrite Hkept, !length_alter.
    destruct (rebuild_result (fields workflowJSON)) as [[]|e]; simpl; f_equal; f_equal.
    + rewrite <- (alter_name_value idle_label v btn r).
      rewrite (alter_app_l (set_wvalue v)) by (by rewrite length_alter).
      by rewrite <- alter_name_value.
    + rewrite (alter_app_l (set_wvalue v)) by (by rewrite length_alter).
      by rewrite <- alter_name_value.
  - unfold failed, update_store, log. simpl. f_equal. f_equal.
    by rewrite !alter_name_value.
Qed.

(** X9: the second variant tests the path for truthiness and nothing
    more: a refresh of a node whose path widget holds one non-empty text
    does, up to that text, what it does on the node with any other
    non-empty text there (the same call to the host, the same widgets,
    inputs, label, events and result). *)
Theorem host_refresh_ignores_path_text (g : graph) pathWidget btn path' w :
  ToBoolean (path_of pathWidget w) = true →
  ToBoolean path' = true →
  Host.updateDynamicInputs g (Some pathWidget) btn (user_sets_value pathWidget path' w) =
  ((Host.updateDynamicInputs g (Some pathWidget) btn w).1,
   user_sets_value pathWidget path' (Host.updateDynamicInputs g (Some pathWidget) btn w).2).
Proof.
  intros Hpath Hpath'. pose proof (value_at_lt _ _ Hpath) as Hlt.
  rewrite (host_refresh_runs g pathWidget btn w Hpath).
  rewrite host_refresh_runs.
  - by apply refresh_end_edit.
  - simpl. unfold value_at. rewrite list_lookup_alter_eq.
    destruct (lookup_lt_is_Some_2 _ _ Hlt) as [x ->]. done.
Qed.

Lemma host_refresh_ignores_path_text_witness :
  Host.updateDynamicInputs (runs_to example_workflow) (Some 0) 1
    (user_sets_value 0 (VStr "other.json") example_created) =
  ((Host.updateDynamicInputs (runs_to example_workflow) (Some 0) 1 example_created).1,
   user_sets_value 0 (VStr "other.json")
     (Host.updateDynamicInputs (runs_to example_workflow) (Some 0) 1 example_created).2).
Proof.
  by apply (host_refresh_ignores_path_text (runs_to example_workflow) 0 1
              (VStr "other.json") example_created).
Defined.

(** ** The names of the widgets *)

Lemma append_nil s : "" +:+ s = s.
Proof. reflexivity. Qed.

Lemma append_cons c s t : String c s +:+ t = String c (s +:+ t).
Proof. reflexivity. Qed.

Lemma widgetName_key_inj nodeId key key' :
  widgetName nodeId key = widgetName nodeId key' → key = key'.
Proof.
  unfold widgetName. intros H.
  by apply (inj (String.app "dyn_")), (inj (String.app nodeId)),
    (inj (String.app "_")) in H.
Qed.

Lemma plain_id_cons c nodeId :
  plain_id (String c nodeId) = true →
  c ≠ Ascii.ascii_of_nat 95 ∧ plain_id nodeId = true.
Proof.
  unfold plain_id. simpl. intros [Hc Hid]%andb_true_iff. split; [|done].
  intros ->. done.
Qed.

Lemma widgetName_inj nodeId nodeId' key key' :
  plain_id nodeId = true → plain_id nodeId' = true →
  widgetName nodeId key = widgetName nodeId' key' →
  nodeId = nodeId' ∧ key = key'.
Proof.
  unfold widgetName. intros Hid Hid' H. apply (inj (String.app "dyn_")) in H.
  revert nodeId' Hid Hid' H.
  induction nodeId as [|c nodeId IH]; intros [|c' nodeId'] Hid Hid' H;
    rewrite ?append_cons, ?append_nil in H.
  - by injection H as ->.
  - injection H as <- _. by apply plain_id_cons in Hid' as [[] _].
  - injection H as -> _. by apply plain_id_cons in Hid as [[] _].
  - injection H as -> H. apply plain_id_cons in Hid as [_ Hid].
    apply plain_id_cons in Hid' as [_ Hid'].
    by destruct (IH nodeId' Hid Hid' H) as [-> ->].
Qed.

Lemma flat_map_bind {A B} (f : A → list B) (l : list A) : flat_map f l = l ≫= f.
Proof. induction l as [|x l IH]; [done|]. csimpl. by rewrite IH. Qed.

Lemma fmap_flat_map {A B C} (f : B → C) (g : A → list B) (l : list A) :
  f <$> flat_map g l = flat_map (λ x, f <$> g x) l.
Proof. induction l as [|x l IH]; [done|]. simpl. by rewrite fmap_app, IH. Qed.

Lemma fields_keys o : (fields o).*1 = for_in o.
Proof.
  unfold fields. rewrite <- list_fmap_compose.
  induction (for_in o) as [|k keys IH]; [done|]. csimpl. by rewrite IH.
Qed.

Lemma fields_elem o field :
  field ∈ fields o → field.2 = lookup_prop field.1 (own_props o).
Proof.
  unfold fields. intros Hin. apply list_elem_of_In, in_map_iff in Hin as (k & <- & _).
  done.
Qed.

Lemma fields_same_key o field field' :
  field ∈ fields o → field' ∈ fields o → field.1 = field'.1 → field = field'.
Proof.
  intros H H' Hkey. apply fields_elem in H, H'.
  destruct field, field'; simpl in *. congruence.
Qed.

Lemma field_widget_name nodeId field name :
  name ∈ wname <$> field_widget nodeId field → name = widgetName nodeId field.1.
Proof.
  unfold field_widget. destruct (widget_kind field.2); simpl.
  - by intros ->%list_elem_of_singleton.
  - by intros ?%elem_of_nil.
Qed.

Lemma node_names_distinct nodeId inputs :
  NoDup (for_in inputs) →
  NoDup (flat_map (λ field, wname <$> field_widget nodeId field) (fields inputs)).
Proof.
  intros Hkeys. rewrite flat_map_bind. apply NoDup_bind.
  - intros field field' name Hin Hin' Hname Hname'.
    apply field_widget_name in Hname, Hname'. subst name.
    apply (fields_same_key inputs); [done..|]. by apply widgetName_key_inj in Hname'.
  - intros field _. unfold field_widget. destruct (widget_kind field.2); simpl.
    + apply NoDup_singleton.
    + constructor.
  - apply (NoDup_fmap_1 fst). by rewrite fields_keys.
Qed.

Lemma dynamic_widgets_names_distinct v :
  NoDup (for_in v) →
  Forall (λ entry, plain_id entry.1 = true ∧ NoDup (for_in (inputs_of entry.2)))
         (fields v) →
  NoDup (wname <$> dynamic_widgets v).
Proof.
  intros Hkeys Hentries. unfold dynamic_widgets, node_widgets.
  rewrite fmap_flat_map, flat_map_bind. apply NoDup_bind.
  - intros entry entry' name Hin Hin' Hname Hname'.
    pose proof (proj1 (Forall_forall _ _) Hentries _ Hin) as [Hid _].
    pose proof (proj1 (Forall_forall _ _) Hentries _ Hin') as [Hid' _].
    rewrite fmap_flat_map, flat_map_bind in Hname, Hname'.
    apply list_elem_of_bind in Hname as (field & Hname & _).
    apply list_elem_of_bind in Hname' as (field' & Hname' & _).
    apply field_widget_name in Hname, Hname'. subst name.
    apply (fields_same_key v); [done..|].
    by destruct (widgetName_inj _ _ _ _ Hid Hid' Hname').
  - intros entry Hin. rewrite fmap_flat_map.
    apply node_names_distinct.
    by destruct (proj1 (Forall_forall _ _) Hentries _ Hin).
  - apply (NoDup_fmap_1 fst). by rewrite fields_keys.
Qed.

(** X10: after a refresh that went through on a response whose node ids
    hold no underscore, and in which no key occurs twice in the response
    or under one node's [inputs], the [dyn_] widgets of the node have
    pairwise different names, in both variants. *)
Theorem dynamic_widgets_have_distinct_names (net : network) (g : graph)
    pathWidget btn w v :
  ToBoolean (path_of pathWidget w) = true →
  wf_world btn w →
  well_shaped v = true →
  NoDup (for_in v) →
  Forall (λ entry, plain_id entry.1 = true ∧ NoDup (for_in (inputs_of entry.2)))
         (fields v) →
  (http_returns net (path_of pathWidget w) v →
     NoDup (dynamic_names (Http.updateDynamicInputs net (Some pathWidget) btn w))) ∧
  (host_returns g (this_id w) v →
     NoDup (dynamic_names (Host.updateDynamicInputs g (Some pathWidget) btn w))).
Proof.
  intros Hpath Hwf Hshape Hkeys Hentries. unfold dynamic_names. split; intros Hv.
  - run_http Hv. rewrite refresh_end_dynamic_view by done.
    by apply dynamic_widgets_names_distinct.
  - run_host Hv. rewrite refresh_end_dynamic_view by done.
    by apply dynamic_widgets_names_distinct.
Qed.

Lemma dynamic_widgets_have_distinct_names_witness :
  NoDup (dynamic_names
           (Http.updateDynamicInputs (answers example_workflow) (Some 0) 1
              example_created)) ∧
  NoDup (dynamic_names
           (Host.updateDynamicInputs (runs_to example_workflow) (Some 0) 1
              example_created)).
Proof.
  assert (NoDup (for_in example_workflow)) as Hkeys.
  { apply (bool_decide_unpack _). vm_compute. exact I. }
  assert (Forall (λ entry, plain_id entry.1 = true ∧
                           NoDup (for_in (inputs_of entry.2)))
                 (fields example_workflow)) as Hentries.
  { repeat constructor; apply (bool_decide_unpack _); vm_compute; exact I. }
  destruct (dynamic_widgets_have_distinct_names (answers example_workflow)
              (runs_to example_workflow) 0 1 example_created example_workflow
              eq_refl example_created_wf eq_refl Hkeys Hentries) as [Hhttp Hhost].
  split.
  - apply Hhttp, answers_returns.
  - apply Hhost, host_ok; reflexivity.
Defined.

Lemma append_assoc (a b c : string) : (a +:+ b) +:+ c = a +:+ b +:+ c.
Proof.
  induction a as [|x a IH]; [done|]. by rewrite !append_cons, IH.
Qed.

Lemma append_longer (a b : string) x : a +:+ String x b ≠ a.
Proof.
  induction a as [|y a IH]; [done|]. rewrite append_cons. by intros [= H].
Qed.

Lemma underscore_workflow_fields a b c x y :
  fields (underscore_workflow a b c x y) =
  [(a +:+ "_" +:+ b, VObj [("inputs", VObj [(c, x)])]);
   (a, VObj [("inputs", VObj [(b +:+ "_" +:+ c, y)])])].
Proof.
  apply fields_object. repeat constructor; simpl; [|tauto]. intros [H|[]].
  symmetry in H. by apply (append_longer a b) in H.
Qed.

Lemma underscore_workflow_shaped a b c x y :
  well_shaped (underscore_workflow a b c x y) = true.
Proof. unfold well_shaped. by rewrite underscore_workflow_fields. Qed.

Lemma underscore_workflow_widgets a b c x y kind kind' :
  widget_kind x = Some kind → widget_kind y = Some kind' →
  dynamic_widgets (underscore_workflow a b c x y) =
  [Widget kind (widgetName a (b +:+ "_" +:+ c)) x None;
   Widget kind' (widgetName a (b +:+ "_" +:+ c)) y None].
Proof.
  intros Hx Hy.
  assert (∀ props, inputs_of (VObj [("inputs", VObj props)]) = VObj props) as Hin
    by done.
  unfold dynamic_widgets. rewrite underscore_workflow_fields.
  cbn [flat_map]. unfold node_widgets. cbn [fst snd].
  rewrite !Hin, !fields_object by (repeat constructor; simpl; tauto).
  cbn [flat_map]. unfold field_widget. cbn [fst snd]. rewrite Hx, Hy.
  unfold widgetName. by rewrite append_assoc.
Qed.

(** X11: the name of a widget does not tell the node id from the key when
    an id holds an underscore: after a refresh on a response with the
    node ids [a_b] and [a], whose inputs have the scalar fields [c] and
    [b_c], the node has two [dyn_] widgets of the one name [dyn_a_b_c]. *)
Theorem underscore_ids_share_a_name (net : network) (g : graph)
    pathWidget btn w a b c x y :
  ToBoolean (path_of pathWidget w) = true →
  wf_world btn w →
  is_Some (widget_kind x) → is_Some (widget_kind y) →
  (http_returns net (path_of pathWidget w) (underscore_workflow a b c x y) →
     dynamic_names (Http.updateDynamicInputs net (Some pathWidget) btn w) =
       [widgetName a (b +:+ "_" +:+ c); widgetName a (b +:+ "_" +:+ c)]) ∧
  (host_returns g (this_id w) (underscore_workflow a b c x y) →
     dynamic_names (Host.updateDynamicInputs g (Some pathWidget) btn w) =
       [widgetName a (b +:+ "_" +:+ c); widgetName a (b +:+ "_" +:+ c)]).
Proof.
  intros Hpath Hwf [kind Hx] [kind' Hy]. unfold dynamic_names.
  split; intros Hv.
  - run_http Hv.
    rewrite refresh_end_dynamic_view by (done || apply underscore_workflow_shaped).
    by rewrite (underscore_workflow_widgets _ _ _ _ _ _ _ Hx Hy).
  - run_host Hv.
    rewrite refresh_end_dynamic_view by (done || apply underscore_workflow_shaped).
    by rewrite (underscore_workflow_widgets _ _ _ _ _ _ _ Hx Hy).
Qed.

Lemma underscore_ids_share_a_name_witness :
  dynamic_names
    (Http.updateDynamicInputs
       (answers (underscore_workflow "1" "2" "seed" (num 5) (VStr "hi")))
       (Some 0) 1 example_created) = ["dyn_1_2_seed"; "dyn_1_2_seed"].
Proof.
  destruct (underscore_ids_share_a_name
              (answers (underscore_workflow "1" "2" "seed" (num 5) (VStr "hi")))
              (runs_to VNull) 0 1 example_created "1" "2" "seed" (num 5) (VStr "hi")
              eq_refl example_created_wf (mk_is_Some _ _ eq_refl)
              (mk_is_Some _ _ eq_refl)) as [Hhttp _].
  apply Hhttp, answers_returns.
Defined.

(** ** Inputs that are not an object *)

Lemma index_props_keys_distinct (l : list value) :
  List.NoDup (map fst (index_props l)).
Proof.
  apply NoDup_ListNoDup, NoDup_alt. intros i j k Hi Hj.
  change (map fst) with (fmap (M:=list) (@fst string value)) in Hi, Hj.
  unfold index_props in Hi, Hj. rewrite list_lookup_fmap, list_lookup_imap in Hi, Hj.
  destruct (l !! i), (l !! j); simpl in *; try done.
  injection Hi as <-. injection Hj as Hj. by apply (inj pretty) in Hj.
Qed.

Lemma own_props_keys_distinct inputs :
  (∀ props, inputs = VObj props → List.NoDup (map fst props)) →
  List.NoDup (map fst (own_props inputs)).
Proof.
  intros Hobj. destruct inputs as [| |b|x|s|elems|props]; simpl;
    try constructor; try apply index_props_keys_distinct.
  by apply Hobj.
Qed.

Lemma fields_own_props o :
  List.NoDup (map fst (own_props o)) → fields o = own_props o.
Proof. intros H. by apply (fields_object (own_props o)) in H. Qed.

Lemma falsy_has_no_props v : ToBoolean v = false → own_props v = [].
Proof.
  destruct v as [| |b|x|s|elems|props]; try done.
  simpl. by destruct s.
Qed.

(** X12: the inner loop enumerates whatever is under [inputs], object or
    not: for a node whose [inputs] is an array the widgets are those of
    its elements under the keys 0, 1, ..., for a string those of its
    one-character strings, one per UTF-16 code unit, under the same
    keys, and for a number, a boolean, [null] or nothing, none. *)
Theorem inputs_of_any_type_are_enumerated workflowJSON nodeId inputs more w :
  lookup_prop nodeId (own_props workflowJSON) = VObj (("inputs", inputs) :: more) →
  (∀ props, inputs = VObj props → List.NoDup (map fst props)) →
  node_step workflowJSON nodeId w =
  (Ok tt, add_widgets (flat_map (field_widget nodeId) (own_props inputs)) w).
Proof.
  intros Hnode Hobj.
  assert (nullish workflowJSON = false) as Hv by (by destruct workflowJSON).
  rewrite node_step_adds by (by rewrite ?Hnode).
  rewrite Hnode. unfold node_widgets, inputs_of. simpl.
  destruct (ToBoolean inputs) eqn:Hin.
  - by rewrite (fields_own_props _ (own_props_keys_distinct _ Hobj)).
  - by rewrite (falsy_has_no_props _ Hin).
Qed.

Lemma inputs_of_any_type_are_enumerated_witness :
  node_step (VObj [("3", VObj [("inputs", VArr [VStr "a"; VNull; num 2])])]) "3"
    example_created =
  (Ok tt,
   add_widgets [Widget "STRING" "dyn_3_0" (VStr "a") None;
                Widget "INT" "dyn_3_2" (num 2) None] example_created) ∧
  node_step (VObj [("3", VObj [("inputs", VStr "né")])]) "3" example_created =
  (Ok tt,
   add_widgets [Widget "STRING" "dyn_3_0" (VStr "n") None;
                Widget "STRING" "dyn_3_1" (VStr "é") None] example_created).
Proof.
  split.
  - by apply (inputs_of_any_type_are_enumerated
                (VObj [("3", VObj [("inputs", VArr [VStr "a"; VNull; num 2])])]) "3"
                (VArr [VStr "a"; VNull; num 2]) [] example_created).
  - by apply (inputs_of_any_type_are_enumerated
                (VObj [("3", VObj [("inputs", VStr "né")])]) "3"
                (VStr "né") [] example_created).
Defined.

(** ** Runs that overlap *)

Lemma awaiting_ready btn t w : handler_ready btn w → handler_ready btn (awaiting btn t w).
Proof.
  intros [[Hbtn Hrefs] _]. split; [split|]; simpl.
  - by rewrite length_alter.
  - by rewrite length_alter.
  - right. by apply name_at_alter_eq.
Qed.

(** A run resumed in a world it did not itself leave ends in the node a
    whole run from that world ends in. *)
Lemma resume_as_refresh btn t v w :
  handler_ready btn w →
  well_shaped v = true →
  (resume btn (Ok v) w).1 = Ok tt ∧
  store (resume btn (Ok v) w).2 = store (refresh_end btn t (Ok v) w).2 ∧
  this_widgets (resume btn (Ok v) w).2 = this_widgets (refresh_end btn t (Ok v) w).2 ∧
  this_inputs (resume btn (Ok v) w).2 = this_inputs (refresh_end btn t (Ok v) w).2.
Proof.
  intros Hready Hv. pose proof (handler_ready_not_dynamic _ _ Hready) as Hlabel.
  destruct Hready as [[Hbtn Hrefs] _].
  rewrite refresh_end_store, refresh_end_widgets, refresh_end_inputs by done.
  rewrite kept_refs_entry by done.
  unfold resume. destruct (well_shaped_done _ Hv) as [-> ->]. simpl.
  split; [done|]. split; [|done].
  by apply alter_app_l.
Qed.

(** X13: the rebuild is not interrupted, so runs that overlap do not
    mix their widgets: when a second click comes while the first run
    awaits its data source, and the run that resumes last got a
    well-shaped response, the node ends with exactly the [dyn_] widgets
    of that response and the idle label, whatever the other run was
    answered. *)
Theorem overlapping_runs_keep_last_answer btn t1 t2 r1 v2 w :
  handler_ready btn w →
  well_shaped v2 = true →
  (overlapped btn t1 t2 r1 (Ok v2) w).1 = Ok tt ∧
  List.filter (λ x, is_dynamic (wname x))
    (widgets_of (overlapped btn t1 t2 r1 (Ok v2) w).2) = dynamic_widgets v2 ∧
  name_at (store (overlapped btn t1 t2 r1 (Ok v2) w).2) btn = idle_label.
Proof.
  intros Hready Hv. unfold overlapped.
  change (resume btn r1 (awaiting btn t2 (awaiting btn t1 w)))
    with (refresh_end btn t2 r1 (awaiting btn t1 w)).
  pose proof (refresh_end_ready btn t2 r1 _ (awaiting_ready btn t1 w Hready)) as Hmid.
  set (mid := (refresh_end btn t2 r1 (awaiting btn t1 w)).2) in *.
  destruct (resume_as_refresh btn t2 v2 mid Hmid Hv) as (Hok & Hstore & Hwidgets & _).
  split; [done|]. split.
  - unfold widgets_of. rewrite Hstore, Hwidgets.
    apply (refresh_end_dynamic_view btn t2 v2 mid Hv), Hmid.
  - rewrite Hstore. apply refresh_end_idle; [apply Hmid|].
    by rewrite (refresh_end_completed _ _ _ _ Hv).
Qed.

Lemma overlapping_runs_keep_last_answer_witness :
  List.filter (λ x, is_dynamic (wname x))
    (widgets_of
       (overlapped 1 (ERunNode (num 7)) (ERunNode (num 7))
          (Ok broken_workflow) (Ok example_workflow) example_created).2) =
  dynamic_widgets example_workflow.
Proof.
  apply (overlapping_runs_keep_last_answer 1 (ERunNode (num 7)) (ERunNode (num 7))
           (Ok broken_workflow) example_workflow example_created).
  - split; [exact example_created_wf|by left].
  - reflexivity.
Defined.
